(** * unslop: the tool functions of the agents and the tool scaffolder

    A shallow embedding of the Python sources under [src/] and the
    properties of the specification that were checked against them.

    Python [str] values are lists of characters.  A character is a code
    point below 256 (the Latin-1 range), which is what [ascii] holds; the
    character classes below ([py_isspace], [py_lower], [py_isalpha]) are
    those of Python 3 on that range. *)

From Stdlib Require Import ZArith QArith Ascii String DecimalString.
From stdpp Require Import gmap strings list fin_maps.

Local Open Scope Z_scope.

(** ** Python strings *)

Definition str : Type := list ascii.

Definition lit (s : string) : str := list_ascii_of_string s.
Arguments lit s%_string.

Definition nl : ascii := "010"%char.
Definition dq : ascii := "034"%char.
Definition sq : ascii := "039"%char.

Definition code (c : ascii) : N := N_of_ascii c.

Definition in_range (lo hi : N) (c : ascii) : bool :=
  ((lo <=? code c) && (code c <=? hi))%N.

Definition chr_eqb (a b : ascii) : bool := Ascii.eqb a b.

Definition is_upper (c : ascii) : bool := in_range 65 90 c.
Definition is_lower (c : ascii) : bool := in_range 97 122 c.
Definition is_digit (c : ascii) : bool := in_range 48 57 c.
Definition is_underscore (c : ascii) : bool := chr_eqb c "_"%char.

(** [str.isspace] of one character, also the class [\s] of [re] on [str]
    patterns: TAB..CR, FS..US, space, NEL and NBSP. *)
Definition py_isspace (c : ascii) : bool :=
  in_range 9 13 c || in_range 28 32 c
  || (code c =? 133)%N || (code c =? 160)%N.

(** [str.lower] of one character: A..Z and the capital letters of
    U+00C0..U+00DE (the multiplication sign U+00D7 is not a letter). *)
Definition py_lower_chr (c : ascii) : ascii :=
  if is_upper c || (in_range 192 222 c && negb (code c =? 215)%N)
  then ascii_of_N (code c + 32) else c.

Definition py_lower (s : str) : str := map py_lower_chr s.

(** [str.isalpha] of one character. *)
Definition py_isalpha (c : ascii) : bool :=
  is_upper c || is_lower c
  || (code c =? 170)%N || (code c =? 181)%N || (code c =? 186)%N
  || in_range 192 214 c || in_range 216 246 c || in_range 248 255 c.

Fixpoint drop_while (p : ascii -> bool) (s : str) : str :=
  match s with
  | c :: r => if p c then drop_while p r else s
  | [] => []
  end.

Definition lstrip (p : ascii -> bool) (s : str) : str := drop_while p s.
Definition rstrip (p : ascii -> bool) (s : str) : str :=
  rev (drop_while p (rev s)).

(** [s.strip()] and [s.strip(chars)]. *)
Definition strip_by (p : ascii -> bool) (s : str) : str := rstrip p (lstrip p s).
Definition py_strip (s : str) : str := strip_by py_isspace s.

Fixpoint starts_with (p s : str) : bool :=
  match p, s with
  | [], _ => true
  | a :: p', b :: s' => chr_eqb a b && starts_with p' s'
  | _ :: _, [] => false
  end.

Definition ends_with (s p : str) : bool := starts_with (rev p) (rev s).

(** [s.replace(old, new)]: the occurrences of [old] are found from the left
    and do not overlap; [skip] counts the characters of an occurrence that
    are still to be dropped. *)
Fixpoint replace_go (old new : str) (skip : nat) (s : str) : str :=
  match s with
  | [] => []
  | c :: r =>
      match skip with
      | S k => replace_go old new k r
      | O => if starts_with old s
             then new ++ replace_go old new (length old - 1) r
             else c :: replace_go old new O r
      end
  end.

Definition py_replace (old new s : str) : str :=
  match old with
  | [] => new ++ flat_map (fun c => c :: new) s
  | _ :: _ => replace_go old new O s
  end.

(** ["sep".join(parts)] *)
Fixpoint join (sep : str) (parts : list str) : str :=
  match parts with
  | [] => []
  | [p] => p
  | p :: rest => p ++ sep ++ join sep rest
  end.

(** [needle in hay] on strings. *)
Fixpoint contains (needle hay : str) : bool :=
  starts_with needle hay ||
  match hay with
  | _ :: r => contains needle r
  | [] => false
  end.

(** [str(n)] of an [int]. *)
Definition str_of_int (n : Z) : str :=
  lit (NilZero.string_of_int (Z.to_int n)).

(** ** Exceptions *)

Inductive exn : Type :=
| ValueError (msg : str)
| KeyError (key : str)
| IndexError (msg : str)
| ZeroDivisionError (msg : str)
| OSError (msg : str).

Inductive result (A : Type) : Type :=
| Ok (a : A)
| Raise (e : exn).
Arguments Ok {A} a.
Arguments Raise {A} e.

#[global] Instance result_ret : MRet result := fun A a => Ok a.
#[global] Instance result_bind : MBind result := fun A B f m =>
  match m with
  | Ok a => f a
  | Raise e => Raise e
  end.

Definition returns_value {A} (m : result A) : Prop :=
  match m with Ok _ => True | Raise _ => False end.

(** [str(e)] as the f-string [{e}] renders it. *)
Definition exn_text (e : exn) : str :=
  match e with
  | ValueError m => m
  | KeyError k => [sq] ++ k ++ [sq]
  | IndexError m => m
  | ZeroDivisionError m => m
  | OSError m => m
  end.

(** ** Regular expressions of [agent_scaffolder/tools.py]

    Each pattern of the source is embedded as a matcher in continuation
    style: a piece takes the matcher [k] of what follows it and the text
    at the current position, and returns the text left after the whole
    match.  Greedy repetition tries the longest run first and backs off,
    lazy repetition tries the shortest first, as [re] does. *)

Definition cont : Type := str -> option str.

Fixpoint m_lit (l : str) (k : cont) (s : str) : option str :=
  match l with
  | [] => k s
  | a :: l' =>
      match s with
      | b :: s' => if chr_eqb a b then m_lit l' k s' else None
      | [] => None
      end
  end.

(** [X*], greedy. *)
Fixpoint m_star (p : ascii -> bool) (k : cont) (s : str) : option str :=
  match s with
  | c :: s' =>
      if p c
      then match m_star p k s' with
           | Some r => Some r
           | None => k s
           end
      else k s
  | [] => k []
  end.

(** [X+], greedy. *)
Definition m_plus (p : ascii -> bool) (k : cont) (s : str) : option str :=
  match s with
  | c :: s' => if p c then m_star p k s' else None
  | [] => None
  end.

(** [[\s\S]*?], lazy. *)
Fixpoint m_lazy_any (k : cont) (s : str) : option str :=
  match k s with
  | Some r => Some r
  | None =>
      match s with
      | _ :: s' => m_lazy_any k s'
      | [] => None
      end
  end.

(** A search with [re.MULTILINE]: [^] holds at the start of the text and
    after every newline; [bol] tells whether it holds at the current
    position. *)
Fixpoint search_bol (m : str -> bool) (bol : bool) (s : str) : bool :=
  (bol && m s) ||
  match s with
  | c :: s' => search_bol m (chr_eqb c nl) s'
  | [] => false
  end.

(** [re.sub(pattern, "", text, flags=re.MULTILINE)] for a pattern that
    starts with [^] and cannot match the empty string: matches are taken
    from the left and do not overlap; [skip] counts the characters of the
    current match that are still to be dropped. *)
Fixpoint sub_empty_go (m : cont) (skip : nat) (bol : bool) (s : str) : str :=
  match s with
  | [] => []
  | c :: s' =>
      match skip with
      | S k => sub_empty_go m k (chr_eqb c nl) s'
      | O =>
          match (if bol then m s else None) with
          | Some r => sub_empty_go m (length s - length r - 1) (chr_eqb c nl) s'
          | None => c :: sub_empty_go m O (chr_eqb c nl) s'
          end
      end
  end.

(** [^[A-Za-z_][A-Za-z0-9_]*$]: without [re.MULTILINE], [$] holds at the
    end of the text and just before a newline that ends the text. *)
Definition ident_start (c : ascii) : bool :=
  is_upper c || is_lower c || is_underscore c.
Definition ident_char (c : ascii) : bool := ident_start c || is_digit c.

Fixpoint ident_tail (s : str) : bool :=
  match s with
  | [] => true
  | [c] => ident_char c || chr_eqb c nl
  | c :: r => ident_char c && ident_tail r
  end.

Definition _VALID_IDENT (s : str) : bool :=
  match s with
  | c :: r => ident_start c && ident_tail r
  | [] => false
  end.

(** [[^a-z0-9_]+] replaced by a hyphen: every maximal run of characters
    outside the class becomes one hyphen; [in_run] tells whether the
    previous character was part of a run. *)
Definition slug_char (c : ascii) : bool :=
  is_lower c || is_digit c || is_underscore c.

Fixpoint sub_runs (in_run : bool) (s : str) : str :=
  match s with
  | [] => []
  | c :: r =>
      if slug_char c then c :: sub_runs false r
      else if in_run then sub_runs true r
      else "-"%char :: sub_runs true r
  end.

Definition is_hyphen (c : ascii) : bool := chr_eqb c "-"%char.

(** [^async\s+def\s+<fname>\s*\(], the name taken literally
    ([re.escape]). *)
Definition m_def_head (fname : str) (k : cont) : cont :=
  m_lit (lit "async") (m_plus py_isspace (m_lit (lit "def")
    (m_plus py_isspace (m_lit fname (m_star py_isspace (m_lit (lit "(") k)))))).

(** [(?=^async\s+def|\Z)] right after a newline. *)
Definition next_def_or_end (s : str) : bool :=
  match s with
  | [] => true
  | _ :: _ =>
      bool_decide (is_Some (m_lit (lit "async")
        (m_plus py_isspace (m_lit (lit "def") Some)) s))
  end.

(** The pattern of the overwrite branch:
    [^async\s+def\s+<fname>\s*\([^\)]*\)\s*->[\s\S]*?\n(?=^async\s+def|\Z)] *)
Definition m_old_block (fname : str) : cont :=
  m_def_head fname
    (m_star (fun c => negb (chr_eqb c ")"%char))
      (m_lit (lit ")")
        (m_star py_isspace
          (m_lit (lit "->")
            (m_lazy_any
              (m_lit [nl]
                 (fun r => if next_def_or_end r then Some r else None))))))).

Definition remove_old_block (fname text : str) : str :=
  sub_empty_go (m_old_block fname) O true text.

(** ** The scaffolder: [agent_scaffolder/tools.py] *)

(** [_slugify] *)
Definition _slugify (name : str) : str :=
  py_replace (lit "--") (lit "-")
    (strip_by is_hyphen (sub_runs false (py_lower (py_strip name)))).

(** [_ensure_ident] *)
Definition _ensure_ident (s kind : str) : result str :=
  if _VALID_IDENT s then Ok s
  else Raise (ValueError
         (lit "Invalid " ++ kind ++ lit " identifier: '" ++ s ++ lit "'")).

(** The file system: a path is the list of its components, a node is a
    directory or a regular file with its text. *)
Inductive node : Type :=
| Dir
| File (text : str).

Abbreviation Path := (list str).
Abbreviation FS := (gmap (list str) node).

Definition is_file (n : option node) : bool :=
  match n with Some (File _) => true | _ => false end.

(** The paths [p[:1]], [p[:2]], ..., [p]. *)
Fixpoint prefixes (p : Path) : list Path :=
  match p with
  | [] => []
  | d :: rest => [d] :: map (cons d) (prefixes rest)
  end.

(** [Path.mkdir(parents=True, exist_ok=True)]: an error, and no change,
    when the path or one of its ancestors is a regular file. *)
Definition mkdir_p (p : Path) (fs : FS) : result FS :=
  if existsb (fun q => is_file (fs !! q)) (prefixes p)
  then Raise (OSError (lit "mkdir"))
  else Ok (foldr (fun q m => <[q := Dir]> m) fs (prefixes p)).

(** [Path.exists] *)
Definition path_exists (p : Path) (fs : FS) : bool :=
  bool_decide (is_Some (fs !! p)).

(** [Path.read_text] *)
Definition read_text (p : Path) (fs : FS) : result str :=
  match fs !! p with
  | Some (File t) => Ok t
  | Some Dir => Raise (OSError (lit "read_text: is a directory"))
  | None => Raise (OSError (lit "read_text: no such file"))
  end.

(** [Path.write_text] *)
Definition write_text (p : Path) (t : str) (fs : FS) : result FS :=
  match fs !! p with
  | Some Dir => Raise (OSError (lit "write_text: is a directory"))
  | _ => Ok (<[p := File t]> fs)
  end.

(** One entry of a spec's [params]; [None] is a key that is absent.  The
    key [name] is always there. *)
Record Param (Val : Type) : Type := {
  pname : str;
  ptype : option str;
  pdescription : option str;
  pdefault : option Val
}.
Arguments pname {Val}.
Arguments ptype {Val}.
Arguments pdescription {Val}.
Arguments pdefault {Val}.

(** The [returns] mapping of a spec. *)
Record Returns : Type := {
  rtype : option str;
  rdescription : option str
}.

(** A tool spec; [None] is a key that is absent. *)
Record ToolSpec (Val : Type) : Type := {
  function_name : option str;
  description : option str;
  params : option (list (Param Val));
  returns : option Returns;
  body : option str
}.
Arguments function_name {Val}.
Arguments description {Val}.
Arguments params {Val}.
Arguments returns {Val}.
Arguments body {Val}.

(** What the generator reads from the execution context. *)
Record ToolContext : Type := {
  app_base_path : option str;
  component_base_path : option str;
  (** [artifact_service.create_file_artifact(file_path, display_name,
      mime_type)]: the identifier of the artifact, [None] when the call
      raises or gives nothing with an [id]. *)
  artifact_service : option (Path -> str -> str -> option str)
}.

(** The record a call returns. *)
Record Generated : Type := {
  module_path : str;
  py_file : Path;
  created : list str;
  skipped : list str;
  artifact_ids : list str;
  yaml_tools_block : str
}.

Inductive ToolResult : Type :=
| StatusError (error : str)
| StatusSuccess (g : Generated).

Definition line_break (c : ascii) : bool :=
  in_range 10 13 c || in_range 28 30 c || (code c =? 133)%N.

(** [str.splitlines]: a CR LF pair is one line break; [after_cr] tells
    that the previous character was a CR, [cur] is the current line,
    reversed. *)
Fixpoint splitlines_go (after_cr : bool) (cur : str) (s : str) : list str :=
  match s with
  | [] => match cur with [] => [] | _ :: _ => [rev cur] end
  | c :: r =>
      if chr_eqb c nl && after_cr then splitlines_go false cur r
      else if line_break c
           then rev cur :: splitlines_go (chr_eqb c "013"%char) [] r
           else splitlines_go false (c :: cur) r
  end.

Definition splitlines (s : str) : list str := splitlines_go false [] s.

Definition truthy (s : str) : bool :=
  match s with [] => false | _ :: _ => true end.

Definition get_or {A} (o : option A) (d : A) : A :=
  match o with Some a => a | None => d end.

(** The two stub bodies of [_default_body]. *)
Definition dict_stub : str :=
  lit "    result = {" ++ [dq] ++ lit "status" ++ [dq] ++ lit ": "
  ++ [dq] ++ lit "ok" ++ [dq] ++ lit ", " ++ [dq] ++ lit "note"
  ++ [dq] ++ lit ": " ++ [dq] ++ lit "Replace with real logic"
  ++ [dq] ++ lit "}" ++ [nl] ++ lit "    return result" ++ [nl].

Definition text_stub : str :=
  lit "    return " ++ [dq] ++ lit "OK (replace with real logic)"
  ++ [dq] ++ [nl].

(** [_default_body] *)
Definition _default_body (return_type : option str) : str :=
  match return_type with
  | Some t =>
      if truthy t &&
         (bool_decide (py_lower t = lit "dict")
          || bool_decide (py_lower t = lit "mapping"))
      then dict_stub
      else text_stub
  | None => text_stub
  end.

(** [_function_exists] *)
Definition _function_exists (file_text fname : str) : bool :=
  search_bol (fun s => bool_decide (is_Some (m_def_head fname Some s)))
    true file_text.

(** [_render_header] *)
Definition _render_header (module_title : str) : str :=
  lit "# Auto-generated tool stubs for " ++ module_title ++ [nl]
  ++ lit "from __future__ import annotations" ++ [nl]
  ++ lit "from typing import Any, Dict, List, Optional" ++ [nl]
  ++ lit "from solace_ai_connector.common.log import log" ++ [nl]
  ++ [nl].

(** [_render_yaml_tool_block] *)
Definition _render_yaml_tool_block (module_path fn_name description : str) : str :=
  let desc := if truthy description then description
              else fn_name ++ lit " tool." in
  lit "- tool_type: python" ++ [nl]
  ++ lit "  component_module: " ++ [dq] ++ module_path ++ [dq] ++ [nl]
  ++ lit "  component_base_path: ." ++ [nl]
  ++ lit "  function_name: " ++ [dq] ++ fn_name ++ [dq] ++ [nl]
  ++ lit "  tool_description: " ++ [dq] ++ desc ++ [dq] ++ [nl].

Section Scaffolder.

(** The values a parameter default can hold and Python's [repr] on
    them, the resolution of a base path string to an absolute path
    ([Path(s).resolve()]) and the directory two levels above the
    installed module ([Path(__file__).resolve().parents[2]]) come from
    outside the repository. *)
Variable Val : Type.
Variable repr : Val -> str.
Variable resolve : str -> Path.
Variable install_root : Path.

(** [_resolve_base] *)
Definition _resolve_base (tool_context : option ToolContext) : Path :=
  match tool_context with
  | Some ctx =>
      match app_base_path ctx with
      | Some ((_ :: _) as app_base) => resolve app_base
      | _ =>
          match component_base_path ctx with
          | Some ((_ :: _) as comp_base) => resolve comp_base
          | _ => install_root
          end
      end
  | None => install_root
  end.

(** One turn of the loop of [_render_param_sig]. *)
Definition render_param (p : Param Val) : result str :=
  nm ← _ensure_ident (pname p) (lit "parameter");
  let typ := get_or (ptype p) (lit "Any") in
  match pdefault p with
  | Some d => mret (nm ++ lit ": " ++ typ ++ lit " = " ++ repr d)
  | None => mret (nm ++ lit ": " ++ typ)
  end.

(** [_render_param_sig] *)
Definition _render_param_sig (ps : list (Param Val)) : result str :=
  rendered ← mapM render_param ps;
  mret (join (lit ", ")
          (rendered ++ [lit "tool_context=None";
                        lit "tool_config: Optional[Dict[str, Any]] = None"])).

Definition docstring_arg (p : Param Val) : str :=
  lit "  " ++ pname p ++ lit " (" ++ get_or (ptype p) (lit "Any")
  ++ lit "): " ++ get_or (pdescription p) [].

Definition returns_truthy (r : Returns) : bool :=
  match rtype r, rdescription r with
  | None, None => false
  | _, _ => true
  end.

(** [_render_docstring] *)
Definition _render_docstring (desc : str) (ps : list (Param Val))
    (r : Returns) : str :=
  let lines := [[dq; dq; dq]; py_strip desc] in
  let lines :=
    match ps with
    | [] => lines
    | _ :: _ => lines ++ [[]; lit "Args:"] ++ map docstring_arg ps
    end in
  let lines :=
    if returns_truthy r
    then lines ++ [[]; lit "Returns:";
                   lit "  " ++ get_or (rtype r) (lit "Any") ++ lit ": "
                   ++ get_or (rdescription r) []]
    else lines in
  join ([nl] ++ lit "    ") (lines ++ [[dq; dq; dq]]).

Definition default_returns : Returns :=
  {| rtype := Some (lit "Any"); rdescription := Some [] |}.

Definition blank (line : str) : bool := negb (truthy (py_strip line)).

(** The lines a given [body] adds to the block. *)
Definition body_lines (b : str) : list str :=
  map (fun line => if blank line then line else lit "    " ++ line)
      (splitlines b)
  ++ (if ends_with b [nl] then [] else [[]]).

(** [_render_function_block] *)
Definition _render_function_block (spec : ToolSpec Val) : result str :=
  name ← match function_name spec with
         | Some n => Ok n
         | None => Raise (KeyError (lit "function_name"))
         end;
  fname ← _ensure_ident name (lit "function");
  let desc := get_or (description spec) (lit "No description provided.") in
  let ps := get_or (params spec) [] in
  let r := get_or (returns spec) default_returns in
  sig ← _render_param_sig ps;
  let doc := _render_docstring desc ps r in
  let block :=
    [lit "async def " ++ fname ++ lit "(" ++ sig ++ lit ") -> "
       ++ get_or (rtype r) (lit "Any") ++ lit ":";
     lit "    " ++ doc;
     lit "    log.info(" ++ [dq] ++ lit "[" ++ fname ++ lit "] called"
       ++ [dq] ++ lit ")"] in
  let block :=
    match body spec with
    | Some ((_ :: _) as b) => block ++ body_lines b
    | _ => block ++ [_default_body (rtype r)]
    end in
  mret (join [nl] block ++ [nl; nl]).

(** The state of the loop over [tools]. *)
Record LoopState : Type := {
  text : str;
  ls_created : list str;
  ls_skipped : list str
}.

(** One turn of the loop over [tools]. *)
Definition process_spec (overwrite : bool) (st : LoopState)
    (spec : ToolSpec Val) : result LoopState :=
  let checked :=
    match function_name spec with
    | Some n => _ensure_ident n (lit "function")
    | None => Raise (KeyError (lit "function_name"))
    end in
  match checked with
  | Raise e =>
      Ok {| text := text st;
            ls_created := ls_created st;
            ls_skipped := ls_skipped st ++
              [get_or (function_name spec) (lit "<missing>")
               ++ lit " (invalid: " ++ exn_text e ++ lit ")"] |}
  | Ok fname =>
      let exists_ := _function_exists (text st) fname in
      if exists_ && negb overwrite
      then Ok {| text := text st;
                 ls_created := ls_created st;
                 ls_skipped := ls_skipped st ++ [fname] |}
      else
        let t := if exists_ && overwrite
                 then remove_old_block fname (text st)
                 else text st in
        blk ← _render_function_block spec;
        Ok {| text := t ++ blk;
              ls_created := ls_created st ++ [fname];
              ls_skipped := ls_skipped st |}
  end.

Fixpoint process_specs (overwrite : bool) (st : LoopState)
    (tools : list (ToolSpec Val)) : result LoopState :=
  match tools with
  | [] => Ok st
  | spec :: rest =>
      st' ← process_spec overwrite st spec;
      process_specs overwrite st' rest
  end.

(** The registration snippet: one stanza per spec whose name is valid. *)
Definition yaml_blocks (module_path : str) (tools : list (ToolSpec Val))
    : list str :=
  flat_map (fun spec =>
    match function_name spec with
    | Some ((_ :: _) as fn) =>
        if _VALID_IDENT fn
        then [_render_yaml_tool_block module_path fn
                (get_or (description spec) [])]
        else []
    | _ => []
    end) tools.

(** The artifact registration, which never fails the call. *)
Definition register_artifact (tool_context : option ToolContext)
    (file : Path) (slug now_tag : str) : list str :=
  match tool_context with
  | Some ctx =>
      match artifact_service ctx with
      | Some create_file_artifact =>
          match create_file_artifact file
                  (slug ++ lit "_tools_" ++ now_tag ++ lit ".py")
                  (lit "text/x-python") with
          | Some id => [id]
          | None => []
          end
      | None => []
      end
  | None => []
  end.

(** [define_dynamic_tools]: the file system before the call and the
    reading of the clock ([_now_tag]) are arguments, the file system
    after the call comes with the result; an exception leaves the file
    system as it was when it was raised. *)
Definition define_dynamic_tools
    (agent_name : option str) (tools : option (list (ToolSpec Val)))
    (overwrite : bool) (tool_context : option ToolContext)
    (now_tag : str) (fs : FS) : FS * result ToolResult :=
  match agent_name with
  | None | Some [] =>
      (fs, Ok (StatusError (lit "agent_name is required")))
  | Some ((_ :: _) as agent) =>
      match tools with
      | None | Some [] =>
          (fs, Ok (StatusError (lit "tools must be a non-empty list")))
      | Some ((_ :: _) as specs) =>
          let slug := py_replace (lit "-") (lit "_") (_slugify agent) in
          match slug with
          | [] => (fs, Raise (IndexError (lit "string index out of range")))
          | c0 :: _ =>
              match _ensure_ident
                      (if py_isalpha c0 then slug else lit "_" ++ slug)
                      (lit "module") with
              | Raise e => (fs, Raise e)
              | Ok _ =>
                  let base := _resolve_base tool_context in
                  let src_dir := base ++ [lit "src"; slug] in
                  let py := src_dir ++ [lit "tools.py"] in
                  let init_file := src_dir ++ [lit "__init__.py"] in
                  let mpath := lit "src." ++ slug ++ lit ".tools" in
                  match mkdir_p src_dir fs with
                  | Raise e => (fs, Raise e)
                  | Ok fs1 =>
                      match (if path_exists init_file fs1 then Ok fs1
                             else write_text init_file [] fs1) with
                      | Raise e => (fs1, Raise e)
                      | Ok fs2 =>
                          match (if path_exists py fs2 then read_text py fs2
                                 else Ok (_render_header agent)) with
                          | Raise e => (fs2, Raise e)
                          | Ok text0 =>
                              match process_specs overwrite
                                      {| text := text0; ls_created := [];
                                         ls_skipped := [] |} specs with
                              | Raise e => (fs2, Raise e)
                              | Ok st =>
                                  match write_text py (text st) fs2 with
                                  | Raise e => (fs2, Raise e)
                                  | Ok fs3 =>
                                      (fs3, Ok (StatusSuccess
                                        {| module_path := mpath;
                                           py_file := py;
                                           created := ls_created st;
                                           skipped := ls_skipped st;
                                           artifact_ids :=
                                             register_artifact tool_context
                                               py slug now_tag;
                                           yaml_tools_block :=
                                             join [nl] (yaml_blocks mpath specs)
                                        |}))
                                  end
                              end
                          end
                      end
                  end
              end
          end
      end
  end.

End Scaffolder.

(** ** What the domain tools share *)

(** What a tool can observe besides its arguments: the wall clock that
    [datetime.now()] reads and the process-wide log sink. *)
Record World : Type := {
  clock : Z;
  log_sink : list str
}.

(** [log.info(msg)] *)
Definition log_info (msg : str) (w : World) : World :=
  {| clock := clock w; log_sink := log_sink w ++ [msg] |}.

(** A [dict] literal with [str] keys, in the order it is written. *)
Definition dict (V : Type) : Type := list (str * V).

(** [d.get(k)] *)
Fixpoint dict_get {V} (d : dict V) (k : str) : option V :=
  match d with
  | [] => None
  | (k', v) :: rest => if bool_decide (k' = k) then Some v else dict_get rest k
  end.

(** [d.get(k, default)] *)
Definition dict_get_or {V} (d : dict V) (k : str) (default : V) : V :=
  get_or (dict_get d k) default.

(** [len(l)] *)
Definition len {A} (l : list A) : Z := Z.of_nat (length l).

(** [a / b] on [int]s: the float that Python returns is represented by
    the exact quotient. *)
Definition py_truediv (a b : Z) : result Q :=
  if b =? 0 then Raise (ZeroDivisionError (lit "division by zero"))
  else Ok (Qdiv (inject_Z a) (inject_Z b)).

(** [l[:n]]: a negative [n] counts from the end. *)
Definition slice_to {A} (l : list A) (n : Z) : list A :=
  if 0 <=? n then take (Z.to_nat n) l
  else take (Z.to_nat (Z.max 0 (len l + n))) l.

(** [any(term in s for term in terms)] *)
Definition any_in (terms : list str) (s : str) : bool :=
  existsb (fun term => contains term s) terms.

(** ** [architect_agent/tools.py] *)
Module Architect.

Record ScaleConfig : Type := {
  infrastructure : str;
  database : str;
  caching : str
}.

Record Diagram : Type := {
  status : str;
  architecture_type : str;
  scale : str;
  recommended_patterns : list str;
  infrastructure_recommendations : ScaleConfig;
  components : list str;
  diagram_suggestion : str;
  next_steps : list str
}.

Definition architecture_patterns : dict (list str) :=
  [(lit "web_application",
      [lit "MVC"; lit "Layered Architecture"; lit "Clean Architecture"]);
   (lit "microservices",
      [lit "Service Mesh"; lit "Event-Driven"; lit "Domain-Driven Design"]);
   (lit "data_pipeline",
      [lit "Lambda Architecture"; lit "Kappa Architecture";
       lit "Batch Processing"]);
   (lit "mobile_app",
      [lit "MVVM"; lit "Clean Architecture"; lit "Repository Pattern"])].

Definition scale_small : ScaleConfig :=
  {| infrastructure := lit "Single server or container";
     database := lit "Single database instance";
     caching := lit "In-memory caching" |}.
Definition scale_medium : ScaleConfig :=
  {| infrastructure := lit "Load-balanced multi-server setup";
     database := lit "Primary-replica database setup";
     caching := lit "Distributed caching layer" |}.
Definition scale_large : ScaleConfig :=
  {| infrastructure := lit "Auto-scaling cloud infrastructure";
     database := lit "Sharded or distributed database";
     caching := lit "Multi-tier caching strategy" |}.
Definition scale_enterprise : ScaleConfig :=
  {| infrastructure := lit "Multi-region cloud deployment";
     database := lit "Globally distributed database";
     caching := lit "Edge caching with CDN" |}.

Definition scale_recommendations : dict ScaleConfig :=
  [(lit "small", scale_small); (lit "medium", scale_medium);
   (lit "large", scale_large); (lit "enterprise", scale_enterprise)].

(** [create_architecture_diagram]; an argument left out is [None] and
    takes the default of the signature. *)
Definition create_architecture_diagram {Ctx Cfg : Type}
    (requirements : str) (system_type scale : option str)
    (tool_context : Ctx) (tool_config : Cfg) (w : World)
    : World * Diagram :=
  let system_type := get_or system_type (lit "web_application") in
  let scale := get_or scale (lit "medium") in
  let w := log_info (lit "[create_architecture_diagram] called") w in
  let recommended_patterns :=
    dict_get_or architecture_patterns system_type
      [lit "Layered Architecture"] in
  let scale_config :=
    dict_get_or scale_recommendations scale
      (dict_get_or scale_recommendations (lit "medium") scale_medium) in
  (w,
   {| status := lit "success";
      architecture_type := system_type;
      scale := scale;
      recommended_patterns := recommended_patterns;
      infrastructure_recommendations := scale_config;
      components :=
        [lit "Presentation Layer"; lit "Business Logic Layer";
         lit "Data Access Layer"; lit "Database Layer"];
      diagram_suggestion :=
        lit "Mermaid diagram for " ++ system_type
        ++ lit " architecture at " ++ scale ++ lit " scale";
      next_steps :=
        [lit "Define detailed component specifications";
         lit "Create API contracts"; lit "Design data models";
         lit "Plan deployment strategy"] |}).

Record StackAdvice : Type := {
  sa_status : str;
  project_type : str;
  recommended_stack : dict (list str);
  team_alignment : str;
  budget_considerations : option str;
  implementation_phases : list str
}.

Definition web_application_stack : dict (list str) :=
  [(lit "frontend", [lit "React"; lit "Vue.js"; lit "Angular"]);
   (lit "backend", [lit "Node.js"; lit "Python/Django"; lit "Java/Spring"]);
   (lit "database", [lit "PostgreSQL"; lit "MySQL"; lit "MongoDB"]);
   (lit "deployment", [lit "Docker"; lit "AWS/Azure"; lit "Vercel"])].

Definition tech_stacks : dict (dict (list str)) :=
  [(lit "web_application", web_application_stack);
   (lit "api_service",
      [(lit "frameworks", [lit "FastAPI"; lit "Express.js"; lit "Spring Boot"]);
       (lit "database", [lit "PostgreSQL"; lit "Redis"; lit "DynamoDB"]);
       (lit "deployment",
          [lit "Kubernetes"; lit "AWS Lambda"; lit "Docker Compose"])]);
   (lit "data_pipeline",
      [(lit "processing", [lit "Apache Spark"; lit "Pandas"; lit "Dask"]);
       (lit "storage",
          [lit "Data Lakes"; lit "Warehouse"; lit "Time Series DB"]);
       (lit "orchestration", [lit "Airflow"; lit "Prefect"; lit "Dagster"])]);
   (lit "mobile_app",
      [(lit "cross_platform",
          [lit "React Native"; lit "Flutter"; lit "Xamarin"]);
       (lit "native", [lit "Swift/iOS"; lit "Kotlin/Android"]);
       (lit "backend", [lit "Firebase"; lit "Supabase"; lit "Custom API"])])].

Definition budget_table : dict str :=
  [(lit "low", lit "Focus on open-source solutions and managed services");
   (lit "medium", lit "Balance of managed services and custom solutions");
   (lit "high", lit "Enterprise-grade tools and custom development")].

(** [recommend_technology_stack] *)
Definition recommend_technology_stack {Ctx Cfg : Type}
    (project_type : str) (team_expertise : option (list str))
    (budget_constraints : option str)
    (tool_context : Ctx) (tool_config : Cfg) (w : World)
    : World * StackAdvice :=
  let budget_constraints := get_or budget_constraints (lit "medium") in
  let w := log_info (lit "[recommend_technology_stack] called") w in
  let team_expertise := get_or team_expertise [] in
  let recommended_stack :=
    dict_get_or tech_stacks project_type
      (dict_get_or tech_stacks (lit "web_application")
         web_application_stack) in
  (w,
   {| sa_status := lit "success";
      project_type := project_type;
      recommended_stack := recommended_stack;
      team_alignment :=
        lit "Matches " ++ str_of_int (len team_expertise)
        ++ lit " of existing expertise areas";
      budget_considerations := dict_get budget_table budget_constraints;
      implementation_phases :=
        [lit "MVP with core functionality";
         lit "Enhanced features and optimization";
         lit "Scaling and advanced features";
         lit "Enterprise features and compliance"] |}).

End Architect.

(** ** [hiring_manager/tools.py] *)
Module Hiring.

Record Experience : Type := {
  years : str;
  responsibilities : str;
  autonomy : str
}.

Definition mid_level : Experience :=
  {| years := lit "3-5 years";
     responsibilities := lit "Independent project ownership";
     autonomy := lit "Self-directed with periodic guidance" |}.

Definition experience_requirements : dict Experience :=
  [(lit "entry",
      {| years := lit "0-2 years";
         responsibilities := lit "Learning-focused with mentorship";
         autonomy := lit "Guided work with regular check-ins" |});
   (lit "mid-level", mid_level);
   (lit "senior",
      {| years := lit "5-8 years";
         responsibilities := lit "Technical leadership and mentoring";
         autonomy := lit "High autonomy with strategic input" |});
   (lit "lead",
      {| years := lit "8+ years";
         responsibilities := lit "Team leadership and architectural decisions";
         autonomy := lit "Full autonomy with stakeholder management" |})].

Record Requirements : Type := {
  experience : str;
  required_skills : list str;
  nice_to_have : list str;
  soft_skills_wanted : list str
}.

Record WorkEnvironment : Type := {
  autonomy_level : str;
  team_structure : str;
  growth_opportunities : str
}.

Record JobText : Type := {
  summary : str;
  jd_responsibilities : list str;
  requirements : Requirements;
  work_environment : WorkEnvironment
}.

Record Compensation : Type := {
  salary_range : str;
  benefits : list str;
  equity : str
}.

Record JobDescription : Type := {
  jd_status : str;
  job_title : str;
  department : str;
  experience_level : str;
  job_description : JobText;
  compensation_guidance : Compensation
}.

(** [create_job_description] *)
Definition create_job_description {Ctx Cfg : Type}
    (role_title department : str) (experience_level : option str)
    (required_skills nice_to_have_skills : option (list str))
    (tool_context : Ctx) (tool_config : Cfg) (w : World)
    : World * JobDescription :=
  let experience_level := get_or experience_level (lit "mid-level") in
  let w := log_info (lit "[create_job_description] called") w in
  let required_skills := get_or required_skills [] in
  let nice_to_have_skills := get_or nice_to_have_skills [] in
  let exp_config :=
    dict_get_or experience_requirements experience_level
      (dict_get_or experience_requirements (lit "mid-level") mid_level) in
  (w,
   {| jd_status := lit "success";
      job_title := role_title;
      department := department;
      experience_level := experience_level;
      job_description :=
        {| summary :=
             lit "We are seeking a talented " ++ role_title
             ++ lit " to join our " ++ department ++ lit " team.";
           jd_responsibilities :=
             [lit "Develop and maintain high-quality solutions for the "
                ++ department ++ lit " team";
              lit "Collaborate with cross-functional teams to deliver projects";
              lit "Participate in code reviews and technical discussions";
              lit "Contribute to team knowledge sharing and best practices"];
           requirements :=
             {| experience := years exp_config;
                required_skills := required_skills;
                nice_to_have := nice_to_have_skills;
                soft_skills_wanted :=
                  [lit "Strong communication skills";
                   lit "Problem-solving mindset"; lit "Team collaboration";
                   lit "Continuous learning attitude"] |};
           work_environment :=
             {| autonomy_level := autonomy exp_config;
                team_structure := responsibilities exp_config;
                growth_opportunities :=
                  lit "Mentoring, training, conference attendance" |} |};
      compensation_guidance :=
        {| salary_range := lit "Competitive based on experience";
           benefits := [lit "Health insurance"; lit "401k"; lit "PTO";
                        lit "Professional development"];
           equity := lit "Stock options available" |} |}).

Record Template : Type := {
  technical_skills : list str;
  soft_skills : list str;
  assessments : list str
}.

Definition engineering : Template :=
  {| technical_skills := [lit "Coding"; lit "System Design";
                          lit "Problem Solving"];
     soft_skills := [lit "Communication"; lit "Collaboration";
                     lit "Learning Agility"];
     assessments := [lit "Live coding"; lit "System design";
                     lit "Code review"] |}.

Definition assessment_templates : dict Template :=
  [(lit "engineering", engineering);
   (lit "design",
      {| technical_skills := [lit "Design Tools"; lit "User Research";
                              lit "Prototyping"];
         soft_skills := [lit "Creativity"; lit "User Empathy";
                         lit "Presentation"];
         assessments := [lit "Portfolio review"; lit "Design challenge";
                         lit "User story walkthrough"] |});
   (lit "product",
      {| technical_skills := [lit "Product Strategy"; lit "Analytics";
                              lit "User Research"];
         soft_skills := [lit "Leadership"; lit "Communication";
                         lit "Strategic Thinking"];
         assessments := [lit "Case study"; lit "Product strategy";
                         lit "Stakeholder simulation"] |});
   (lit "data",
      {| technical_skills := [lit "Statistics"; lit "Programming";
                              lit "Data Analysis"];
         soft_skills := [lit "Business Acumen"; lit "Communication";
                         lit "Critical Thinking"];
         assessments := [lit "Data analysis"; lit "SQL queries";
                         lit "Business case"] |})].

Record Stage : Type := {
  stage : Z;
  name : str;
  duration : str;
  focus : list str;
  interviewers : str
}.

Record InterviewProcess : Type := {
  total_stages : Z;
  estimated_timeline : str;
  stages : list Stage
}.

(** A float literal is kept as the decimal it is written as. *)
Record Criterion : Type := {
  weight : Q;
  criteria : list str
}.

Record Screening : Type := {
  sc_status : str;
  role_type : str;
  assessment_framework : Template;
  interview_process : InterviewProcess;
  evaluation_criteria : dict Criterion;
  decision_framework : dict str
}.

Definition stage_names : list str :=
  [lit "Initial Screening"; lit "Technical Assessment";
   lit "Team Interview"; lit "Final Interview"; lit "Reference Check"].

(** The body of the loop over [range(min(interview_stages, 5))]. *)
Definition make_stage (template : Template) (role_type : str) (i : nat)
    : Stage :=
  {| stage := Z.of_nat i + 1;
     name := nth i stage_names [];
     duration := if (0 <? Z.of_nat i) then lit "45-60 minutes"
                 else lit "30 minutes";
     focus := if (Z.of_nat i =? 1) then technical_skills template
              else soft_skills template;
     interviewers := if (Z.of_nat i =? 0) then lit "Hiring manager"
                     else role_type ++ lit " team members" |}.

(** [design_screening_process] *)
Definition design_screening_process {Ctx Cfg : Type}
    (role_type : str) (skills_to_assess : option (list str))
    (interview_stages : option Z) (assessment_type : option str)
    (tool_context : Ctx) (tool_config : Cfg) (w : World)
    : World * Screening :=
  let interview_stages := get_or interview_stages 3 in
  let assessment_type := get_or assessment_type (lit "technical") in
  let w := log_info (lit "[design_screening_process] called") w in
  let skills_to_assess := get_or skills_to_assess [] in
  let template :=
    dict_get_or assessment_templates role_type
      (dict_get_or assessment_templates (lit "engineering") engineering) in
  let stages :=
    map (make_stage template role_type)
        (seq 0 (Z.to_nat (Z.min interview_stages (len stage_names)))) in
  (w,
   {| sc_status := lit "success";
      role_type := role_type;
      assessment_framework := template;
      interview_process :=
        {| total_stages := interview_stages;
           estimated_timeline :=
             str_of_int (interview_stages * 5 - 7) ++ lit " days";
           stages := stages |};
      evaluation_criteria :=
        [(lit "technical_assessment",
            {| weight := 4 # 10; criteria := technical_skills template |});
         (lit "behavioral_assessment",
            {| weight := 3 # 10; criteria := soft_skills template |});
         (lit "cultural_fit",
            {| weight := 2 # 10;
               criteria := [lit "Values alignment"; lit "Team dynamics";
                            lit "Growth mindset"] |});
         (lit "communication",
            {| weight := 1 # 10;
               criteria := [lit "Clarity"; lit "Active listening";
                            lit "Presentation skills"] |})];
      decision_framework :=
        [(lit "scoring", lit "1-5 scale per criterion");
         (lit "threshold", lit "3.5+ average to proceed");
         (lit "final_decision",
            lit "Consensus-based with hiring manager approval")] |}).

End Hiring.

(** ** [requirements_agent/tools.py]: [create_user_stories] and its helpers *)
Module Requirements.

(** [s.split()]: the maximal runs of characters that are not white
    space; [cur] is the current run, reversed. *)
Fixpoint split_go (cur : str) (s : str) : list str :=
  match s with
  | [] => match cur with [] => [] | _ :: _ => [rev cur] end
  | c :: r =>
      if py_isspace c
      then match cur with
           | [] => split_go [] r
           | _ :: _ => rev cur :: split_go [] r
           end
      else split_go (c :: cur) r
  end.

Definition split (s : str) : list str := split_go [] s.

(** [x in l] on a list of strings. *)
Definition mem (x : str) (l : list str) : bool := bool_decide (x ∈ l).

(** [l[0]] and [l[-1]] *)
Definition first_of (l : list str) : result str :=
  match l with
  | x :: _ => Ok x
  | [] => Raise (IndexError (lit "list index out of range"))
  end.
Definition last_of (l : list str) : result str :=
  match last l with
  | Some x => Ok x
  | None => Raise (IndexError (lit "list index out of range"))
  end.

(** [assign_persona_to_requirement] *)
Definition assign_persona_to_requirement (requirement : str)
    (personas : list str) : result str :=
  let req_lower := py_lower requirement in
  if any_in [lit "admin"; lit "manage"; lit "configure"] req_lower
  then if mem (lit "Administrator") personas
       then Ok (lit "Administrator") else first_of personas
  else if any_in [lit "system"; lit "automatic"; lit "process"] req_lower
  then if mem (lit "System") personas
       then Ok (lit "System") else last_of personas
  else if mem (lit "End User") personas
       then Ok (lit "End User") else first_of personas.

(** [extract_story_action] *)
Definition extract_story_action (requirement : str) : str :=
  let action := py_lower requirement in
  let action :=
    if starts_with (lit "the system") action
    then py_strip (py_replace (lit "the system") [] action)
    else action in
  if starts_with (lit "shall") action
  then py_strip (py_replace (lit "shall") [] action)
  else action.

(** [extract_story_benefit] *)
Definition extract_story_benefit (requirement : str) : str :=
  let low := py_lower requirement in
  if contains (lit "security") low
  then lit "my data and privacy are protected"
  else if contains (lit "performance") low || contains (lit "fast") low
  then lit "I can work efficiently without delays"
  else if contains (lit "interface") low || contains (lit "usability") low
  then lit "I can easily accomplish my tasks"
  else lit "I can achieve my goals effectively".

(** [generate_user_story] *)
Definition generate_user_story (requirement persona format_type : str)
    (story_id : Z) : str :=
  if bool_decide (format_type = lit "gherkin")
  then lit "Given I am a " ++ persona ++ lit ", When I need to "
       ++ py_lower requirement
       ++ lit ", Then the system should provide this functionality"
  else lit "As a " ++ persona ++ lit ", I want to "
       ++ extract_story_action requirement ++ lit ", so that "
       ++ extract_story_benefit requirement.

(** [extract_story_title] *)
Definition extract_story_title (requirement : str) : str :=
  let words := take 6 (split requirement) in
  let title := join (lit " ") words in
  rstrip (fun c => chr_eqb c "."%char || chr_eqb c ","%char) title.

(** [generate_acceptance_criteria] *)
Definition generate_acceptance_criteria (requirement detail_level : str)
    : list str :=
  let base_criteria :=
    [lit "Given the requirement is implemented, the functionality should work as described";
     lit "The solution should handle normal use cases without errors";
     lit "The solution should provide appropriate feedback to users"] in
  if bool_decide (detail_level = lit "detailed")
  then base_criteria ++
       [lit "Edge cases and error conditions are handled gracefully";
        lit "Performance meets specified benchmarks";
        lit "Security considerations are properly addressed";
        lit "Solution is tested and verified to work correctly"]
  else base_criteria.

(** [estimate_story_points] *)
Definition estimate_story_points (requirement : str) : Z :=
  let req_lower := py_lower requirement in
  let points := 2 in
  let points :=
    if any_in [lit "integrate"; lit "api"; lit "third-party"] req_lower
    then points + 3 else points in
  let points :=
    if any_in [lit "complex"; lit "advanced"; lit "multiple"] req_lower
    then points + 2 else points in
  let points :=
    if any_in [lit "security"; lit "authentication"; lit "encryption"] req_lower
    then points + 2 else points in
  let points :=
    if any_in [lit "simple"; lit "basic"; lit "display"] req_lower
    then points - 1 else points in
  Z.max (Z.min points 13) 1.

(** [determine_story_priority] *)
Definition determine_story_priority (requirement : str) : str :=
  let req_lower := py_lower requirement in
  if any_in [lit "critical"; lit "essential"; lit "must"; lit "required"]
       req_lower
  then lit "High"
  else if any_in [lit "should"; lit "important"; lit "needed"] req_lower
  then lit "Medium"
  else lit "Low".

(** [extract_story_tags] *)
Definition extract_story_tags (requirement : str) : list str :=
  let req_lower := py_lower requirement in
  let tags :=
    (if contains (lit "ui") req_lower || contains (lit "interface") req_lower
     then [lit "ui"] else [])
    ++ (if contains (lit "api") req_lower
           || contains (lit "integration") req_lower
        then [lit "integration"] else [])
    ++ (if contains (lit "security") req_lower then [lit "security"] else [])
    ++ (if contains (lit "performance") req_lower
        then [lit "performance"] else [])
    ++ (if contains (lit "data") req_lower
           || contains (lit "database") req_lower
        then [lit "data"] else []) in
  match tags with
  | [] => [lit "general"]
  | _ :: _ => tags
  end.

Record Story : Type := {
  id : str;
  title : str;
  persona : str;
  story : str;
  acceptance_criteria : list str;
  story_points : Z;
  priority : str;
  original_requirement : str;
  tags : list str
}.

Definition theme_of (s : Story) : str :=
  if mem (lit "security") (tags s) then lit "Security"
  else if mem (lit "integration") (tags s) then lit "Integration"
  else if mem (lit "performance") (tags s) then lit "Performance"
  else if any_in [lit "user"; lit "login"; lit "profile"]
            (py_lower (story s))
  then lit "User Management"
  else if mem (lit "general") (tags s) then lit "Core Functionality"
  else lit "Other".

Definition theme_names : list str :=
  [lit "User Management"; lit "Core Functionality"; lit "Integration";
   lit "Security"; lit "Performance"; lit "Other"].

(** [organize_stories_by_theme]: the themes in the order of the
    literal, each with the ids of its stories, the empty ones removed. *)
Definition organize_stories_by_theme (user_stories : list Story)
    : dict (list str) :=
  filter (fun kv => kv.2 ≠ [])
    (map (fun theme =>
            (theme,
             map id (filter (fun s => theme_of s = theme) user_stories)))
         theme_names).

(** [priority_counts[priority] = priority_counts.get(priority, 0) + 1] *)
Fixpoint count_up (d : dict Z) (k : str) : dict Z :=
  match d with
  | [] => [(k, 1)]
  | (k', n) :: rest =>
      if bool_decide (k' = k) then (k', n + 1) :: rest
      else (k', n) :: count_up rest k
  end.

Record Statistics : Type := {
  st_total_stories : Z;
  st_total_story_points : Z;
  average_story_points : Q;
  priority_distribution : dict Z;
  themes_count : Z
}.

Definition sum_Z (l : list Z) : Z := foldr Z.add 0 l.

(** [calculate_story_statistics] *)
Definition calculate_story_statistics (user_stories : list Story)
    : result Statistics :=
  let total_stories := len user_stories in
  let total_points := sum_Z (map story_points user_stories) in
  let priority_counts :=
    foldl (fun d s => count_up d (priority s)) [] user_stories in
  avg ← (if 0 <? total_stories then py_truediv total_points total_stories
         else Ok (inject_Z 0));
  mret {| st_total_stories := total_stories;
          st_total_story_points := total_points;
          average_story_points := avg;
          priority_distribution := priority_counts;
          themes_count := len (organize_stories_by_theme user_stories) |}.

(** [f"US-{n:03d}"] for [n] that is not negative. *)
Definition story_id (n : Z) : str :=
  let digits := str_of_int n in
  lit "US-" ++ replicate (3 - length digits) "0"%char ++ digits.

(** The body of the loop over [enumerate(requirements)]. *)
Definition make_story (user_personas : list str)
    (acceptance_criteria_detail story_format : str)
    (i : nat) (requirement : str) : result Story :=
  assigned_persona ← assign_persona_to_requirement requirement user_personas;
  mret {| id := story_id (Z.of_nat i + 1);
          title := extract_story_title requirement;
          persona := assigned_persona;
          story := generate_user_story requirement assigned_persona
                     story_format (Z.of_nat i + 1);
          acceptance_criteria :=
            generate_acceptance_criteria requirement
              acceptance_criteria_detail;
          story_points := estimate_story_points requirement;
          priority := determine_story_priority requirement;
          original_requirement := requirement;
          tags := extract_story_tags requirement |}.

Fixpoint make_stories (user_personas : list str)
    (acceptance_criteria_detail story_format : str)
    (i : nat) (requirements : list str) : result (list Story) :=
  match requirements with
  | [] => Ok []
  | requirement :: rest =>
      s ← make_story user_personas acceptance_criteria_detail story_format
            i requirement;
      ss ← make_stories user_personas acceptance_criteria_detail
             story_format (S i) rest;
      mret (s :: ss)
  end.

Record Overview : Type := {
  total_stories : Z;
  personas_used : gset str;
  format : str;
  total_story_points : Z
}.

Record Quality : Type := {
  average_acceptance_criteria : Q;
  coverage_completeness : str;
  testability_score : str
}.

Record UserStories : Type := {
  status : str;
  story_overview : Overview;
  user_stories : list Story;
  story_organization : dict (list str);
  statistics : Statistics;
  quality_metrics : Quality;
  recommendations : list str
}.

(** [create_user_stories]; [list(set(...))] has no fixed order and is
    kept as a set. *)
Definition create_user_stories {Ctx Cfg : Type}
    (requirements : list str) (user_personas : option (list str))
    (acceptance_criteria_detail story_format : option str)
    (tool_context : Ctx) (tool_config : Cfg) (w : World)
    : World * result UserStories :=
  let acceptance_criteria_detail :=
    get_or acceptance_criteria_detail (lit "standard") in
  let story_format := get_or story_format (lit "agile") in
  let w := log_info (lit "[create_user_stories] called") w in
  let user_personas :=
    match user_personas with
    | Some ((_ :: _) as l) => l
    | _ => [lit "End User"; lit "Administrator"; lit "System"]
    end in
  (w,
   user_stories ← make_stories user_personas acceptance_criteria_detail
                    story_format 0 requirements;
   let story_organization := organize_stories_by_theme user_stories in
   story_statistics ← calculate_story_statistics user_stories;
   average ← py_truediv
               (sum_Z (map (fun s => len (acceptance_criteria s)) user_stories))
               (len user_stories);
   mret {| status := lit "success";
           story_overview :=
             {| total_stories := len user_stories;
                personas_used := list_to_set (map persona user_stories);
                format := story_format;
                total_story_points :=
                  sum_Z (map story_points user_stories) |};
           user_stories := user_stories;
           story_organization := story_organization;
           statistics := story_statistics;
           quality_metrics :=
             {| average_acceptance_criteria := average;
                coverage_completeness := lit "95%";
                testability_score := lit "High" |};
           recommendations :=
             [lit "Review stories with product owner";
              lit "Validate acceptance criteria with QA team";
              lit "Estimate stories with development team";
              lit "Organize stories into sprints/iterations"] |}).

(** The score of one requirement in the loop of
    [assess_requirement_complexity]. *)
Definition complexity_score (req : str) : Z :=
  let low := py_lower req in
  let score := 1 in
  let score :=
    if any_in [lit "integrate"; lit "api"; lit "third-party"] low
    then score + 2 else score in
  let score :=
    if any_in [lit "real-time"; lit "live"; lit "instant"] low
    then score + 2 else score in
  let score :=
    if any_in [lit "security"; lit "encryption"; lit "compliance"] low
    then score + 1 else score in
  let score :=
    if any_in [lit "workflow"; lit "approval"; lit "business rule"] low
    then score + 1 else score in
  Z.min score 5.

Record Complexity : Type := {
  individual_scores : list Z;
  average_complexity : Q;
  high_complexity_count : Z
}.

(** [assess_requirement_complexity] *)
Definition assess_requirement_complexity (requirements : list str)
    : result Complexity :=
  let complexity_scores := map complexity_score requirements in
  average ← (match complexity_scores with
             | _ :: _ => py_truediv (sum_Z complexity_scores)
                           (len complexity_scores)
             | [] => Ok (inject_Z 0)
             end);
  mret {| individual_scores := complexity_scores;
          average_complexity := average;
          high_complexity_count :=
            len (List.filter (fun score => 4 <=? score) complexity_scores) |}.

End Requirements.

(** ** [program_manager_agent/tools.py] *)
Module ProgramManager.

(** [completed_tasks / max(total_tasks, 1)], the quotient that
    [track_project_progress] turns into [completion_percentage]. *)
Definition completion_ratio (completed_tasks total_tasks : Z) : result Q :=
  py_truediv completed_tasks (Z.max total_tasks 1).

Record Risks : Type := {
  identified_risks : list str;
  risk_level : str;
  mitigation_strategies : list str
}.

(** [assess_project_risks] *)
Definition assess_project_risks (duration_weeks team_size : Z)
    (priority : str) : Risks :=
  let risks :=
    (if 26 <? duration_weeks
     then [lit "Long project duration increases scope creep risk"] else [])
    ++ (if team_size <? 3
        then [lit "Small team size may limit expertise and capacity"]
        else [])
    ++ (if 12 <? team_size
        then [lit "Large team size may create communication overhead"]
        else [])
    ++ (if bool_decide (priority = lit "critical")
        then [lit "High priority may lead to rushed decisions"] else []) in
  {| identified_risks := risks;
     risk_level := if 2 <? len risks then lit "high"
                   else match risks with
                        | _ :: _ => lit "medium"
                        | [] => lit "low"
                        end;
     mitigation_strategies :=
       [lit "Regular stakeholder check-ins"; lit "Agile development practices";
        lit "Clear communication channels";
        lit "Risk monitoring and response plans"] |}.

Definition base_roles : list str :=
  [lit "Tech Lead"; lit "Developer"; lit "Designer"; lit "Product Manager";
   lit "QA Engineer"].

(** [generate_team_roles]: in the two larger cases the slice binds to the
    list of additional roles, not to the sum. *)
Definition generate_team_roles (team_size : Z) : list str :=
  if team_size <=? 3 then slice_to base_roles team_size
  else if team_size <=? 8
  then base_roles
       ++ slice_to [lit "DevOps Engineer"; lit "Data Analyst"] team_size
  else base_roles
       ++ slice_to [lit "DevOps Engineer"; lit "Data Analyst";
                    lit "Security Engineer"; lit "Technical Writer";
                    lit "Scrum Master"] team_size.

(** [g in names] inside a list comprehension over the groups. *)
Definition keep_groups (names groups : list str) : list str :=
  List.filter (fun g => bool_decide (g ∈ names)) groups.

(** [determine_decision_stakeholders] *)
Definition determine_decision_stakeholders (decision : str)
    (available_groups : list str) : list str :=
  let decision_lower := py_lower decision in
  if contains (lit "technical") decision_lower
     || contains (lit "architecture") decision_lower
  then keep_groups [lit "Engineering"; lit "Leadership"] available_groups
  else if contains (lit "feature") decision_lower
          || contains (lit "product") decision_lower
  then keep_groups [lit "Product"; lit "Engineering"; lit "Customers"]
         available_groups
  else if contains (lit "budget") decision_lower
          || contains (lit "timeline") decision_lower
  then keep_groups [lit "Leadership"; lit "Product"] available_groups
  else available_groups.

End ProgramManager.

(** ** Notions the statements use *)

(** The number of lines of [text] on which a definition of [fname]
    starts, counted the way [_function_exists] looks for one. *)
Fixpoint count_bol (m : str -> bool) (bol : bool) (s : str) : nat :=
  ((if bol && m s then 1 else 0) +
   match s with
   | c :: s' => count_bol m (chr_eqb c nl) s'
   | [] => 0
   end)%nat.

Definition count_definitions (fname text : str) : nat :=
  count_bol (fun s => bool_decide (is_Some (m_def_head fname Some s)))
    true text.


(** A spec whose function name is there and passes [_ensure_ident]. *)
Definition named {Val} (spec : ToolSpec Val) : Prop :=
  exists n, function_name spec = Some n /\ _VALID_IDENT n = true.


(** The names of the specs, in input order. *)
Definition names {Val} (tools : list (ToolSpec Val)) : list str :=
  omap function_name tools.

(** A character of a slug before its hyphens become underscores. *)
Definition slug_or_hyphen (c : ascii) : bool := slug_char c || is_hyphen c.

(** Every regular file of [fs] is in [fs'] with the same text. *)
Definition keeps_files (fs fs' : FS) : Prop :=
  forall p t, fs !! p = Some (File t) -> fs' !! p = Some (File t).

(** A regular file of [fs'] is one of [fs] with the same text, or is
    empty. *)
Definition adds_only_empty_files (fs fs' : FS) : Prop :=
  forall p t, fs' !! p = Some (File t) -> fs !! p = Some (File t) \/ t = [].

(** An outcome that is not a success record: an error record or an
    exception. *)
Definition not_success (r : result ToolResult) : Prop :=
  forall g, r <> Ok (StatusSuccess g).

(** Two states of the loop with the same text and the same [created]. *)
Definition same_output (a b : LoopState) : Prop :=
  text a = text b /\ ls_created a = ls_created b.

(** The number of values listed under the keys of a [dict] of lists. *)
Definition entries {V} (d : list (str * list V)) : nat :=
  sum_list (map (fun kv => length kv.2) d).

(** An argument that is missing or empty. *)
Definition missing_or_empty {A} (o : option (list A)) : Prop :=
  o = None \/ o = Some [].

Section Signature.

Variable Val : Type.
Variable repr : Val -> str.

(** The text of one parameter in a signature. *)
Definition sig_entry (p : Param Val) : str :=
  match pdefault p with
  | Some d => pname p ++ lit ": " ++ get_or (ptype p) (lit "Any")
              ++ lit " = " ++ repr d
  | None => pname p ++ lit ": " ++ get_or (ptype p) (lit "Any")
  end.

Definition required (p : Param Val) : bool :=
  match pdefault p with Some _ => false | None => true end.

Definition trailing : list str :=
  [lit "tool_context=None";
   lit "tool_config: Optional[Dict[str, Any]] = None"].

(** The signature as the specification words it: the required
    parameters in input order, then the optional ones, then the two
    fixed parameters. *)
Definition sig_required_first (ps : list (Param Val)) : str :=
  join (lit ", ")
    (map sig_entry (List.filter required ps)
     ++ map sig_entry (List.filter (fun p => negb (required p)) ps)
     ++ trailing).

(** The signature with the parameters in input order. *)
Definition sig_input_order (ps : list (Param Val)) : str :=
  join (lit ", ") (map sig_entry ps ++ trailing).

(** No required parameter comes after an optional one. *)
Fixpoint required_then_optional (ps : list (Param Val)) : bool :=
  match ps with
  | [] => true
  | p :: rest =>
      if required p then required_then_optional rest
      else forallb (fun q => negb (required q)) rest
  end.

End Signature.

(** The declared return type makes [_default_body] give the record stub. *)
Definition denotes_mapping (t : option str) : bool :=
  match t with
  | Some s => bool_decide (py_lower s = lit "dict")
              || bool_decide (py_lower s = lit "mapping")
  | None => false
  end.

(** ** An instance to run the scaffolder on: integer defaults, base path
    strings that are one component, and a repository at [repo]. *)
Module Demo.

Definition run := define_dynamic_tools Z str_of_int (fun s => [s]) [lit "repo"].

Definition simple (fname : string) (ps : list (Param Z)) (rt : string)
    : ToolSpec Z :=
  {| function_name := Some (lit fname); description := None;
     params := Some ps;
     returns := Some {| rtype := Some (lit rt); rdescription := None |};
     body := None |}.

Definition ping : ToolSpec Z := simple "ping" [] "dict".

Definition tuple_param : Param Z :=
  {| pname := lit "x"; ptype := Some (lit "Tuple[()]");
     pdescription := None; pdefault := None |}.

Definition pong (rt : string) : ToolSpec Z := simple "pong" [tuple_param] rt.

Definition limit : Param Z :=
  {| pname := lit "limit"; ptype := Some (lit "int");
     pdescription := None; pdefault := Some 10 |}.

Definition query : Param Z :=
  {| pname := lit "query"; ptype := Some (lit "str");
     pdescription := None; pdefault := None |}.

Definition tools_py (slug : string) : Path :=
  [lit "repo"; lit "src"; lit slug; lit "tools.py"].

Definition text_of (n : option node) : str :=
  match n with Some (File t) => t | _ => [] end.

Definition world0 : World := {| clock := 0; log_sink := [] |}.

(** A spec whose function name starts with a digit. *)
Definition misnamed : ToolSpec Z := simple "2fast" [] "str".

(** A spec with a parameter whose name is not an identifier. *)
Definition hyphenated : ToolSpec Z :=
  simple "fetch"
    [{| pname := lit "max-items"; ptype := None; pdescription := None;
        pdefault := Some 3 |}] "dict".

(** The record of a call that succeeded. *)
Definition generated_of (r : result ToolResult) : Generated :=
  match r with
  | Ok (StatusSuccess g) => g
  | _ => {| module_path := []; py_file := []; created := []; skipped := [];
            artifact_ids := []; yaml_tools_block := [] |}
  end.

(** A repository in which [src/a/tools.py] was written by hand, without
    a newline at its end. *)
Definition hand_written : FS :=
  <[tools_py "a" := File (lit "x = 1")]>
    (foldr (fun q m => <[q := Dir]> m) ∅
       (prefixes [lit "repo"; lit "src"; lit "a"])).

End Demo.

(** * Properties *)

(** ** Validation errors leave the file system alone *)

(** C3: when [agent_name] or [tools] is missing or empty, the call
    returns a record with status "error" and a message, and the file
    system after the call is the one before it: no directory, package
    marker or file was written. *)
Theorem validation_error_is_atomic
    (Val : Type) (repr : Val -> str) (resolve : str -> Path)
    (install_root : Path) (agent_name : option str)
    (tools : option (list (ToolSpec Val))) (overwrite : bool)
    (tool_context : option ToolContext) (now_tag : str) (fs : FS) :
  missing_or_empty agent_name \/ missing_or_empty tools ->
  exists msg,
    define_dynamic_tools Val repr resolve install_root agent_name tools
      overwrite tool_context now_tag fs
    = (fs, Ok (StatusError msg)).
Proof.
  unfold missing_or_empty, define_dynamic_tools.
  intros [[-> | ->] | Htools]; eauto.
  destruct agent_name as [[|c agent]|]; eauto.
  destruct Htools as [-> | ->]; eauto.
Qed.

Lemma validation_error_is_atomic_witness :
  exists msg,
    Demo.run (Some (lit "Data Bot")) (Some []) true None [] ∅
    = (∅, Ok (StatusError msg)).
Proof.
  apply (validation_error_is_atomic Z str_of_int (fun s => [s]) [lit "repo"]).
  right. right. reflexivity.
Defined.

(** ** The timeline of a screening process *)

(** C9: with [interview_stages = n] the field
    [interview_process.estimated_timeline] is the decimal text of
    [5 * n - 7] followed by " days". *)
Theorem estimated_timeline_is_5n_minus_7
    (Ctx Cfg : Type) (role_type : str) (skills_to_assess : option (list str))
    (n : Z) (assessment_type : option str) (tool_context : Ctx)
    (tool_config : Cfg) (w : World) :
  Hiring.estimated_timeline
    (Hiring.interview_process
       (Hiring.design_screening_process role_type skills_to_assess (Some n)
          assessment_type tool_context tool_config w).2)
  = str_of_int (5 * n - 7) ++ lit " days".
Proof.
  cbn [Hiring.design_screening_process snd Hiring.interview_process
       Hiring.estimated_timeline get_or].
  do 3 f_equal. lia.
Qed.

Example estimated_timeline_three_stages :
  Hiring.estimated_timeline
    (Hiring.interview_process
       (Hiring.design_screening_process (lit "engineering") None None None
          tt tt Demo.world0).2)
  = lit "8 days".
Proof. reflexivity. Qed.

(** ** [create_architecture_diagram] depends on its three arguments only *)

(** C10: two calls with the same [requirements], [system_type] and
    [scale] return the same record, whatever the clock, the log, the
    context and the configuration of each call are; a call leaves the
    clock alone. *)
Theorem create_architecture_diagram_deterministic
    (Ctx1 Cfg1 Ctx2 Cfg2 : Type) (requirements : str)
    (system_type scale : option str)
    (context1 : Ctx1) (config1 : Cfg1) (context2 : Ctx2) (config2 : Cfg2)
    (w1 w2 : World) :
  (Architect.create_architecture_diagram requirements system_type scale
     context1 config1 w1).2
  = (Architect.create_architecture_diagram requirements system_type scale
       context2 config2 w2).2
  /\ clock (Architect.create_architecture_diagram requirements system_type
              scale context1 config1 w1).1 = clock w1.
Proof. split; reflexivity. Qed.

(** ** Fallbacks of the look-up tables *)

Lemma dict_get_or_absent {V} (d : dict V) (k : str) (v : V) :
  dict_get d k = None -> dict_get_or d k v = v.
Proof. unfold dict_get_or. intros ->. reflexivity. Qed.

(** A scale that is not in the table gives the "medium" entry. *)
Lemma unrecognized_scale_is_medium
    (Ctx Cfg : Type) (requirements : str) (system_type : option str)
    (scale : str) (tool_context : Ctx) (tool_config : Cfg) (w : World) :
  dict_get Architect.scale_recommendations scale = None ->
  Architect.infrastructure_recommendations
    (Architect.create_architecture_diagram requirements system_type
       (Some scale) tool_context tool_config w).2
  = Architect.scale_medium.
Proof.
  intros H. cbn [Architect.create_architecture_diagram snd get_or
                 Architect.infrastructure_recommendations].
  rewrite (dict_get_or_absent _ _ _ H). reflexivity.
Qed.

(** A project type that is not in the table gives the web application
    stack. *)
Lemma unrecognized_project_type_is_web_application
    (Ctx Cfg : Type) (project_type : str) (team : option (list str))
    (budget : option str) (tool_context : Ctx) (tool_config : Cfg)
    (w : World) :
  dict_get Architect.tech_stacks project_type = None ->
  Architect.recommended_stack
    (Architect.recommend_technology_stack project_type team budget
       tool_context tool_config w).2
  = Architect.web_application_stack.
Proof.
  intros H. cbn [Architect.recommend_technology_stack snd
                 Architect.recommended_stack].
  rewrite (dict_get_or_absent _ _ _ H). reflexivity.
Qed.

(** An experience level that is not in the table gives the "mid-level"
    entry. *)
Lemma unrecognized_experience_is_mid_level
    (Ctx Cfg : Type) (role_title department level : str)
    (required nice : option (list str)) (tool_context : Ctx)
    (tool_config : Cfg) (w : World) :
  dict_get Hiring.experience_requirements level = None ->
  Hiring.experience
    (Hiring.requirements
       (Hiring.job_description
          (Hiring.create_job_description role_title department (Some level)
             required nice tool_context tool_config w).2))
  = Hiring.years Hiring.mid_level.
Proof.
  intros H. cbn [Hiring.create_job_description snd Hiring.job_description
                 Hiring.requirements Hiring.experience get_or].
  rewrite (dict_get_or_absent _ _ _ H). reflexivity.
Qed.

(** A role type that is not in the table gives the "engineering"
    template. *)
Lemma unrecognized_role_is_engineering
    (Ctx Cfg : Type) (role_type : str) (skills : option (list str))
    (n : option Z) (assessment_type : option str) (tool_context : Ctx)
    (tool_config : Cfg) (w : World) :
  dict_get Hiring.assessment_templates role_type = None ->
  Hiring.assessment_framework
    (Hiring.design_screening_process role_type skills n assessment_type
       tool_context tool_config w).2
  = Hiring.engineering.
Proof.
  intros H. cbn [Hiring.design_screening_process snd
                 Hiring.assessment_framework].
  rewrite (dict_get_or_absent _ _ _ H). reflexivity.
Qed.

(** C8: a budget level that is not in the table, here "unlimited", gives
    no text at all in [budget_considerations] ([None] in Python), while
    the record is returned with status "success". *)
Theorem unrecognized_budget_is_absent (w : World) :
  let r := (Architect.recommend_technology_stack (lit "web_application")
              None (Some (lit "unlimited")) tt tt w).2 in
  dict_get Architect.budget_table (lit "unlimited") = None
  /\ Architect.sa_status r = lit "success"
  /\ Architect.budget_considerations r = None.
Proof. repeat split. Qed.

(** ** Division by a count that can be zero *)

(** The quotient of [track_project_progress] has a divisor of at least
    one. *)
Lemma completion_ratio_returns (completed_tasks total_tasks : Z) :
  returns_value (ProgramManager.completion_ratio completed_tasks total_tasks).
Proof.
  unfold ProgramManager.completion_ratio, py_truediv.
  destruct (Z.eqb_spec (Z.max total_tasks 1) 0) as [H | H]; [lia | exact I].
Qed.

(** [calculate_story_statistics] tests the count before it divides. *)
Lemma calculate_story_statistics_returns (l : list Requirements.Story) :
  returns_value (Requirements.calculate_story_statistics l).
Proof.
  unfold Requirements.calculate_story_statistics, py_truediv.
  destruct (Z.ltb_spec 0 (len l)) as [H | H]; [| exact I].
  destruct (Z.eqb_spec (len l) 0) as [H0 | H0]; [lia | exact I].
Qed.

(** C7: [create_user_stories] with an empty list of requirements raises
    [ZeroDivisionError]: the average of the acceptance criteria divides
    by the number of stories, which is zero. *)
Theorem create_user_stories_empty_raises
    (Ctx Cfg : Type) (user_personas : option (list str))
    (acceptance_criteria_detail story_format : option str)
    (tool_context : Ctx) (tool_config : Cfg) (w : World) :
  (Requirements.create_user_stories [] user_personas
     acceptance_criteria_detail story_format tool_context tool_config w).2
  = Raise (ZeroDivisionError (lit "division by zero")).
Proof. reflexivity. Qed.

(** ** Shared facts on the error monad and on [join] *)

Lemma bind_ok {A B} (a : A) (f : A -> result B) : (Ok a ≫= f) = f a.
Proof. reflexivity. Qed.

Lemma bind_inv {A B} (m : result A) (f : A -> result B) (b : B) :
  m ≫= f = Ok b -> exists a, m = Ok a /\ f a = Ok b.
Proof. destruct m as [a|e]; [eauto | discriminate]. Qed.

Lemma Ok_inj {A} (a b : A) : Ok a = Ok b -> a = b.
Proof. congruence. Qed.

Lemma join_cons_cons (sep a b : str) (l : list str) :
  join sep (a :: b :: l) = a ++ sep ++ join sep (b :: l).
Proof. reflexivity. Qed.

Lemma join_snoc (sep x : str) (l : list str) :
  l <> [] -> join sep (l ++ [x]) = join sep l ++ sep ++ x.
Proof.
  induction l as [|a [|b l] IH]; intros Hl; [done | reflexivity |].
  change ((a :: b :: l) ++ [x]) with (a :: b :: (l ++ [x])).
  rewrite !join_cons_cons.
  change (b :: l ++ [x]) with ((b :: l) ++ [x]).
  rewrite IH by discriminate. by rewrite <- !app_assoc.
Qed.


(** ** The stub body of a spec without a body *)

Lemma default_body_by_lowered_type (t : option str) :
  _default_body t = if denotes_mapping t then dict_stub else text_stub.
Proof.
  destruct t as [[|c t]|]; reflexivity.
Qed.

(** The block of a spec without a body ends with its stub and two
    newlines. *)
Lemma render_block_without_body
    (Val : Type) (repr : Val -> str) (spec : ToolSpec Val) (blk : str) :
  get_or (body spec) [] = [] ->
  _render_function_block Val repr spec = Ok blk ->
  exists head,
    blk = head ++ [nl]
          ++ _default_body (rtype (get_or (returns spec) default_returns))
          ++ [nl; nl].
Proof.
  unfold _render_function_block. intros Hbody Hblk.
  apply bind_inv in Hblk as (n & _ & Hblk).
  apply bind_inv in Hblk as (fname & _ & Hblk).
  apply bind_inv in Hblk as (sig & _ & Hblk).
  apply Ok_inj in Hblk. subst blk.
  assert (Hb : match body spec with
               | Some ((_ :: _) as b) => False
               | _ => True
               end).
  { destruct (body spec) as [[|c b]|]; [exact I | discriminate | exact I]. }
  cbv zeta.
  destruct (body spec) as [[|c b]|]; [| destruct Hb |];
    (rewrite join_snoc by discriminate);
    match goal with |- exists _, (?J ++ _) ++ _ = _ => exists J end;
    rewrite <- !app_assoc; reflexivity.
Qed.

(** C6: a spec without a body renders a block that ends with the record
    stub, which holds a "status" key, when the declared return type in
    lower case is "dict" or "mapping" (so for "dict" itself), and with
    the stub that returns a placeholder text for every other declared
    type and when none is declared. *)
Theorem default_body_follows_lowered_type
    (Val : Type) (repr : Val -> str) (spec : ToolSpec Val) (blk : str) :
  get_or (body spec) [] = [] ->
  _render_function_block Val repr spec = Ok blk ->
  let t := rtype (get_or (returns spec) default_returns) in
  (exists head,
     blk = head ++ [nl]
           ++ (if denotes_mapping t then dict_stub else text_stub)
           ++ [nl; nl])
  /\ denotes_mapping (Some (lit "dict")) = true
  /\ contains ([dq] ++ lit "status" ++ [dq]) dict_stub = true
  /\ contains (lit "status") text_stub = false.
Proof.
  intros Hbody Hblk t. split; [| repeat split; vm_compute; reflexivity].
  destruct (render_block_without_body Val repr spec blk Hbody Hblk)
    as [head ->].
  exists head. subst t. rewrite default_body_by_lowered_type. reflexivity.
Qed.

Lemma default_body_follows_lowered_type_witness :
  let blk := match _render_function_block Z str_of_int Demo.ping with
             | Ok b => b
             | Raise _ => []
             end in
  (exists head, blk = head ++ [nl] ++ dict_stub ++ [nl; nl])
  /\ denotes_mapping (Some (lit "dict")) = true
  /\ contains ([dq] ++ lit "status" ++ [dq]) dict_stub = true
  /\ contains (lit "status") text_stub = false.
Proof.
  apply (default_body_follows_lowered_type Z str_of_int Demo.ping);
    reflexivity.
Defined.

(** C6, as stated, fails at the declared type "mapping": it is a string
    other than "dict", and the block ends with the record stub, not with
    the stub that returns a text. *)
Lemma default_body_mapping_counterexample :
  lit "mapping" <> lit "dict"
  /\ exists blk,
       _render_function_block Z str_of_int (Demo.simple "fetch" [] "mapping")
       = Ok blk
       /\ ends_with blk (dict_stub ++ [nl; nl]) = true
       /\ ends_with blk (text_stub ++ [nl; nl]) = false.
Proof.
  split; [discriminate |].
  eexists. split; [vm_compute; reflexivity |]. split; vm_compute; reflexivity.
Qed.

(** ** The order of the parameters in a signature *)

Section SignatureOrder.

Context {Val : Type} (repr : Val -> str).

Lemma render_param_valid (p : Param Val) :
  _VALID_IDENT (pname p) = true ->
  render_param Val repr p = Ok (sig_entry Val repr p).
Proof.
  unfold render_param, _ensure_ident, sig_entry. intros ->.
  rewrite bind_ok. destruct (pdefault p); reflexivity.
Qed.

Lemma render_params_input_order (ps : list (Param Val)) :
  Forall (fun p => _VALID_IDENT (pname p) = true) ps ->
  mapM (render_param Val repr) ps = Ok (map (sig_entry Val repr) ps).
Proof.
  induction 1 as [|p ps Hp _ IH]; [reflexivity |].
  cbn [mapM map]. rewrite (render_param_valid p Hp), bind_ok, IH, bind_ok.
  reflexivity.
Qed.

Lemma optional_only_filter (ps : list (Param Val)) :
  forallb (fun q => negb (required Val q)) ps = true ->
  List.filter (required Val) ps = []
  /\ List.filter (fun q => negb (required Val q)) ps = ps.
Proof.
  induction ps as [|p ps IH]; [done |].
  cbn [forallb List.filter]. intros [Hp Hps]%andb_prop.
  destruct (IH Hps) as [-> ->]. rewrite Hp.
  destruct (required Val p); [discriminate | done].
Qed.

Lemma required_then_optional_split (ps : list (Param Val)) :
  required_then_optional Val ps = true ->
  List.filter (required Val) ps
  ++ List.filter (fun q => negb (required Val q)) ps = ps.
Proof.
  induction ps as [|p ps IH]; [done |].
  cbn [required_then_optional List.filter].
  destruct (required Val p) eqn:Hp; cbn [negb].
  - intros H. cbn [app]. by rewrite (IH H).
  - intros H. destruct (optional_only_filter ps H) as [-> ->]. done.
Qed.

End SignatureOrder.

(** C4: the rendered signature lists the parameters in input order, each
    optional one with the text of its default, then the two fixed
    parameters; the required parameters come first exactly as far as the
    input has them first: when no required parameter follows an optional
    one in the input, the signature is the one with the required ones
    first. *)
Theorem signature_keeps_input_order
    (Val : Type) (repr : Val -> str) (ps : list (Param Val)) :
  Forall (fun p => _VALID_IDENT (pname p) = true) ps ->
  _render_param_sig Val repr ps = Ok (sig_input_order Val repr ps)
  /\ (required_then_optional Val ps = true ->
      sig_input_order Val repr ps = sig_required_first Val repr ps).
Proof.
  intros Hvalid. split.
  - unfold _render_param_sig.
    rewrite (render_params_input_order repr ps Hvalid), bind_ok.
    reflexivity.
  - intros Hsorted. unfold sig_input_order, sig_required_first.
    rewrite app_assoc, <- map_app, (required_then_optional_split ps Hsorted).
    reflexivity.
Qed.

Lemma signature_keeps_input_order_witness :
  _render_param_sig Z str_of_int [Demo.query; Demo.limit]
  = Ok (sig_input_order Z str_of_int [Demo.query; Demo.limit])
  /\ (required_then_optional Z [Demo.query; Demo.limit] = true ->
      sig_input_order Z str_of_int [Demo.query; Demo.limit]
      = sig_required_first Z str_of_int [Demo.query; Demo.limit]).
Proof.
  apply (signature_keeps_input_order Z str_of_int [Demo.query; Demo.limit]).
  repeat constructor.
Defined.

Example signature_of_query_limit :
  _render_param_sig Z str_of_int [Demo.query; Demo.limit]
  = Ok (lit "query: str, limit: int = 10, tool_context=None, tool_config: Optional[Dict[str, Any]] = None").
Proof. vm_compute. reflexivity. Qed.

(** C4, as stated, fails when an optional parameter comes before a
    required one in the input: the names are valid, and the signature
    keeps [limit: int = 10] before [query: str]. *)
Lemma signature_interleaved_counterexample :
  Forall (fun p => _VALID_IDENT (pname p) = true) [Demo.limit; Demo.query]
  /\ _render_param_sig Z str_of_int [Demo.limit; Demo.query]
     = Ok (lit "limit: int = 10, query: str, tool_context=None, tool_config: Optional[Dict[str, Any]] = None")
  /\ _render_param_sig Z str_of_int [Demo.limit; Demo.query]
     <> Ok (sig_required_first Z str_of_int [Demo.limit; Demo.query]).
Proof.
  split; [repeat constructor |].
  split; [vm_compute; reflexivity |].
  vm_compute. discriminate.
Qed.

(** ** The slug of an agent name *)

Example slug_of_my_cool_agent :
  py_replace (lit "-") (lit "_") (_slugify (lit "My Cool Agent!!"))
  = lit "my_cool_agent".
Proof. vm_compute. reflexivity. Qed.

(** C5: the slug of "9 lives" is "9_lives", which is not an identifier:
    the call validates the slug with an underscore put in front of it,
    drops the result and builds the directory and the module path from
    the slug itself.  The name "!!!" is not empty and has an empty slug:
    the call raises [IndexError] on its first character. *)
Theorem slug_is_not_always_an_identifier :
  py_replace (lit "-") (lit "_") (_slugify (lit "9 lives")) = lit "9_lives"
  /\ _VALID_IDENT (lit "9_lives") = false
  /\ (exists g,
        (Demo.run (Some (lit "9 lives")) (Some [Demo.ping]) false None [] ∅).2
        = Ok (StatusSuccess g)
        /\ module_path g = lit "src.9_lives.tools"
        /\ py_file g = Demo.tools_py "9_lives")
  /\ py_replace (lit "-") (lit "_") (_slugify (lit "!!!")) = []
  /\ Demo.run (Some (lit "!!!")) (Some [Demo.ping]) false None [] ∅
     = (∅, Raise (IndexError (lit "string index out of range"))).
Proof.
  split; [vm_compute; reflexivity |].
  split; [vm_compute; reflexivity |].
  split; [eexists; split; [vm_compute; reflexivity | split; reflexivity] |].
  split; vm_compute; reflexivity.
Qed.

(** ** One block per name *)

Example overwrite_replaces_a_plain_block :
  let c1 := Demo.run (Some (lit "a")) (Some [Demo.ping]) false None [] ∅ in
  let c2 := Demo.run (Some (lit "a")) (Some [Demo.simple "ping" [] "str"])
              true None [] c1.1 in
  count_definitions (lit "ping") (Demo.text_of (c2.1 !! Demo.tools_py "a"))
  = 1%nat.
Proof. vm_compute. reflexivity. Qed.

(** C2: after [pong], whose parameter has the type [Tuple[()]], is
    generated into a fresh directory and generated again with
    [overwrite=True] and another return type, the file holds two
    definitions of [pong]: the pattern of the overwrite branch stops at
    the first closing parenthesis of the signature, does not match the
    old block, and the new block is appended all the same. *)
Theorem overwrite_leaves_two_blocks :
  let c1 := Demo.run (Some (lit "a")) (Some [Demo.pong "dict"]) false None
              [] ∅ in
  let c2 := Demo.run (Some (lit "a")) (Some [Demo.pong "str"]) true None
              [] c1.1 in
  (exists g, c2.2 = Ok (StatusSuccess g) /\ created g = [lit "pong"])
  /\ count_definitions (lit "pong")
       (Demo.text_of (c1.1 !! Demo.tools_py "a")) = 1%nat
  /\ remove_old_block (lit "pong") (Demo.text_of (c1.1 !! Demo.tools_py "a"))
     = Demo.text_of (c1.1 !! Demo.tools_py "a")
  /\ count_definitions (lit "pong")
       (Demo.text_of (c2.1 !! Demo.tools_py "a")) = 2%nat.
Proof.
  split; [eexists; split; vm_compute; reflexivity |].
  repeat split; vm_compute; reflexivity.
Qed.

(** ** Matching a definition at the start of a line *)

Lemma chr_eqb_refl (c : ascii) : chr_eqb c c = true.
Proof. apply Ascii.eqb_refl. Qed.
















(** ** The loop over the specs without overwriting *)

Section Loop.

Context {Val : Type} (repr : Val -> str).







End Loop.

(** ** The file system across two calls *)

Lemma lookup_mkdirs (l : list Path) (fs : FS) (q : Path) :
  foldr (fun q m => <[q := Dir]> m) fs l !! q
  = if decide (q ∈ l) then Some Dir else fs !! q.
Proof.
  induction l as [|p l IH]; cbn [foldr].
  - destruct (decide (q ∈ [])) as [H | _]; [by apply elem_of_nil in H | done].
  - rewrite lookup_insert, IH.
    destruct (decide (p = q)) as [-> | Hne].
    + destruct (decide (q ∈ q :: l)) as [_ | H]; [done |].
      destruct H. apply elem_of_cons. by left.
    + destruct (decide (q ∈ l)) as [Hin | Hout];
        destruct (decide (q ∈ p :: l)) as [Hin' | Hout']; try done.
      * destruct Hout'. apply elem_of_cons. by right.
      * apply elem_of_cons in Hin' as [-> | Hin']; [done | by destruct Hout].
Qed.




Lemma mkdir_p_lookup (p : Path) (fs fs' : FS) (q : Path) :
  mkdir_p p fs = Ok fs' ->
  fs' !! q = if decide (q ∈ prefixes p) then Some Dir else fs !! q.
Proof.
  unfold mkdir_p. destruct (existsb _ _); [discriminate |].
  intros H. apply Ok_inj in H as <-. apply lookup_mkdirs.
Qed.




(** ** Calling the generator twice *)

Lemma StatusSuccess_inj (g g' : Generated) :
  StatusSuccess g = StatusSuccess g' -> g = g'.
Proof. congruence. Qed.



(** A call that returned a success record is the pair of its file system
    and that record. *)
Lemma call_of_its_parts (c : FS * result ToolResult) (g : Generated) :
  c.2 = Ok (StatusSuccess g) ->
  c = (c.1, Ok (StatusSuccess (Demo.generated_of c.2))).
Proof. destruct c as [fs r]. cbn [fst snd]. intros ->. reflexivity. Qed.


Example second_call_on_fresh_directory :
  let first := Demo.run (Some (lit "Data Bot")) (Some [Demo.ping]) false None
                 [] ∅ in
  let second := Demo.run (Some (lit "Data Bot")) (Some [Demo.ping]) false
                  None [] first.1 in
  created (Demo.generated_of first.2) = [lit "ping"]
  /\ created (Demo.generated_of second.2) = []
  /\ skipped (Demo.generated_of second.2) = [lit "ping"]
  /\ second.1 !! Demo.tools_py "data_bot" = first.1 !! Demo.tools_py "data_bot".
Proof. vm_compute. repeat split. Qed.

(** C1, as stated, fails on a target file whose text does not end with a
    newline: the first call appends the block of [ping] right after
    "x = 1", where no line starts, so the second call does not find the
    name, creates [ping] again and makes the file longer. *)
Lemma second_call_counterexample :
  let first := Demo.run (Some (lit "a")) (Some [Demo.ping]) false None []
                 Demo.hand_written in
  let second := Demo.run (Some (lit "a")) (Some [Demo.ping]) false None []
                  first.1 in
  Forall named [Demo.ping]
  /\ (exists g1, first.2 = Ok (StatusSuccess g1) /\ created g1 = [lit "ping"])
  /\ (exists g2, second.2 = Ok (StatusSuccess g2)
                 /\ created g2 = [lit "ping"] /\ skipped g2 = [])
  /\ second.1 !! Demo.tools_py "a" <> first.1 !! Demo.tools_py "a".
Proof.
  intros first second. split.
  { constructor; [| constructor]. exists (lit "ping"). split; reflexivity. }
  split; [eexists; split; vm_compute; reflexivity |].
  split; [eexists; split; [| split]; vm_compute; reflexivity |].
  intros H.
  apply (f_equal (fun n => length (Demo.text_of n))) in H.
  vm_compute in H. discriminate H.
Qed.

(** * Further properties of the scaffolder *)

(** ** The characters of a slug *)

Lemma sub_runs_chars (in_run : bool) (s : str) :
  Forall (fun c => slug_or_hyphen c = true) (sub_runs in_run s).
Proof.
  revert in_run. induction s as [|c s IH]; intros in_run; cbn [sub_runs].
  - constructor.
  - destruct (slug_char c) eqn:Hc.
    + constructor; [unfold slug_or_hyphen; by rewrite Hc | apply IH].
    + destruct in_run; [apply IH |].
      constructor; [reflexivity | apply IH].
Qed.

Lemma drop_while_chars (P : ascii -> Prop) (p : ascii -> bool) (s : str) :
  Forall P s -> Forall P (drop_while p s).
Proof.
  induction 1 as [|c s Hc Hs IH]; cbn [drop_while]; [constructor |].
  destruct (p c); [exact IH | by constructor].
Qed.

Lemma strip_by_chars (P : ascii -> Prop) (p : ascii -> bool) (s : str) :
  Forall P s -> Forall P (strip_by p s).
Proof.
  intros H. unfold strip_by, rstrip, lstrip.
  apply Forall_rev, drop_while_chars, Forall_rev, drop_while_chars, H.
Qed.

Lemma replace_go_chars (P : ascii -> Prop) (old new : str) (skip : nat)
    (s : str) :
  Forall P new -> Forall P s -> Forall P (replace_go old new skip s).
Proof.
  intros Hnew Hs. revert skip.
  induction Hs as [|c s Hc Hs IH]; intros skip; cbn [replace_go];
    [constructor |].
  destruct skip; [| apply IH].
  destruct (starts_with old (c :: s)).
  - apply Forall_app. split; [exact Hnew | apply IH].
  - constructor; [exact Hc | apply IH].
Qed.

Lemma hyphens_to_underscores (s : str) :
  Forall (fun c => slug_or_hyphen c = true) s ->
  Forall (fun c => slug_char c = true) (py_replace (lit "-") (lit "_") s).
Proof.
  change (py_replace (lit "-") (lit "_") s)
    with (replace_go (lit "-") (lit "_") O s).
  induction 1 as [|c s Hc Hs IH]; cbn [replace_go]; [constructor |].
  change (starts_with (lit "-") (c :: s)) with (chr_eqb "-" c && true).
  rewrite andb_true_r.
  destruct (chr_eqb "-" c) eqn:Heq.
  - change (length (lit "-") - 1)%nat with O. cbn [app lit].
    constructor; [reflexivity | exact IH].
  - constructor; [| exact IH].
    unfold slug_or_hyphen, is_hyphen in Hc.
    apply orb_prop in Hc as [Hc | Hc]; [exact Hc |].
    unfold chr_eqb in *. rewrite Ascii.eqb_sym in Hc. congruence.
Qed.

(** X1: The slug of any agent name is made of lower-case ASCII letters,
    digits and underscores only: no path separator, dot or hyphen gets
    into the directory name and the module path. *)
Theorem slug_characters (agent_name : str) :
  Forall (fun c => slug_char c = true)
    (py_replace (lit "-") (lit "_") (_slugify agent_name)).
Proof.
  apply hyphens_to_underscores. unfold _slugify.
  change (py_replace (lit "--") (lit "-") ?s)
    with (replace_go (lit "--") (lit "-") O s).
  apply replace_go_chars; [repeat constructor |].
  apply strip_by_chars, sub_runs_chars.
Qed.

(** ** Identifiers *)

Lemma ident_tail_of_chars (s : str) :
  Forall (fun c => ident_char c = true) s -> ident_tail s = true.
Proof.
  induction 1 as [|c s Hc Hs IH]; [reflexivity |].
  destruct s as [|d s]; [cbn [ident_tail]; by rewrite Hc |].
  change (ident_tail (c :: d :: s))
    with (ident_char c && ident_tail (d :: s)).
  by rewrite Hc, IH.
Qed.

Lemma slug_char_ident_char (c : ascii) :
  slug_char c = true -> ident_char c = true.
Proof.
  unfold slug_char, ident_char, ident_start.
  destruct (is_upper c), (is_lower c), (is_digit c), (is_underscore c);
    done.
Qed.

Lemma slug_char_alpha_starts (c : ascii) :
  slug_char c = true -> py_isalpha c = true -> ident_start c = true.
Proof.
  destruct c as [[] [] [] [] [] [] [] []]; vm_compute; congruence.
Qed.

(** X2: The check of the module name in [define_dynamic_tools] cannot fail:
    whenever the slug is not empty, the slug, with an underscore in front
    of it when it does not start with a letter, passes
    [_ensure_ident]. *)
Theorem module_check_passes (agent_name : str) (c0 : ascii) (rest : str) :
  py_replace (lit "-") (lit "_") (_slugify agent_name) = c0 :: rest ->
  let slug := c0 :: rest in
  let checked := if py_isalpha c0 then slug else lit "_" ++ slug in
  _ensure_ident checked (lit "module") = Ok checked.
Proof.
  intros Hslug slug checked.
  pose proof (slug_characters agent_name) as Hchars.
  rewrite Hslug in Hchars. apply Forall_cons in Hchars as [Hc0 Hrest].
  assert (Htail : ident_tail slug = true).
  { apply ident_tail_of_chars. constructor.
    - by apply slug_char_ident_char.
    - eapply Forall_impl; [exact Hrest | apply slug_char_ident_char]. }
  unfold _ensure_ident. subst checked slug.
  destruct (py_isalpha c0) eqn:Halpha.
  - cbn [_VALID_IDENT]. rewrite (slug_char_alpha_starts c0 Hc0 Halpha).
    cbn [andb]. rewrite (ident_tail_of_chars rest); [done |].
    eapply Forall_impl; [exact Hrest | apply slug_char_ident_char].
  - change (_VALID_IDENT (lit "_" ++ c0 :: rest))
      with (ident_start "_" && ident_tail (c0 :: rest)).
    by rewrite Htail.
Qed.

Lemma module_check_passes_witness :
  _ensure_ident (lit "_9_lives") (lit "module") = Ok (lit "_9_lives").
Proof.
  exact (module_check_passes (lit "9 lives") "9" (lit "_lives")
           ltac:(vm_compute; reflexivity)).
Defined.

Lemma ident_tail_cases (s : str) :
  ident_tail s = true <->
  forallb ident_char s = true
  \/ exists r, s = r ++ [nl] /\ forallb ident_char r = true.
Proof.
  induction s as [|c s IH]; [cbn; tauto |].
  destruct s as [|d s].
  - cbn [ident_tail forallb]. rewrite andb_true_r, orb_true_iff. split.
    + intros [H | H]; [by left |]. right. exists [].
      apply Ascii.eqb_eq in H as ->. done.
    + intros [H | (r & Hr & _)]; [by left |]. right.
      destruct r as [|a [|b r]]; [| discriminate Hr | discriminate Hr].
      injection Hr as ->. apply chr_eqb_refl.
  - change (ident_tail (c :: d :: s))
      with (ident_char c && ident_tail (d :: s)).
    change (forallb ident_char (c :: d :: s))
      with (ident_char c && forallb ident_char (d :: s)).
    rewrite !andb_true_iff, IH. split.
    + intros [Hc [H | (r & Hr & Hall)]]; [by left |]. right.
      exists (c :: r). cbn [app forallb]. rewrite Hr, Hc, Hall. done.
    + intros [[Hc H] | (r & Hr & Hall)]; [split; [exact Hc | by left] |].
      destruct r as [|a r]; [discriminate Hr |].
      injection Hr as -> Hr. cbn [forallb] in Hall.
      apply andb_prop in Hall as [Ha Hall].
      split; [exact Ha |]. right. eauto.
Qed.

(** X3: What [_VALID_IDENT] accepts: an ASCII letter or underscore followed by
    letters, digits and underscores, and also such a name followed by one
    newline, because [$] matches before a newline that ends the text. *)
Theorem valid_ident_cases (s : str) :
  _VALID_IDENT s = true <->
  exists c r,
    ident_start c = true /\ forallb ident_char r = true
    /\ (s = c :: r \/ s = c :: r ++ [nl]).
Proof.
  destruct s as [|c s]; cbn [_VALID_IDENT].
  - split; [discriminate |]. intros (c & r & _ & _ & [H | H]); discriminate H.
  - rewrite andb_true_iff, ident_tail_cases. split.
    + intros [Hc [H | (r & -> & H)]]; exists c; eauto 8.
    + intros (c' & r & Hc & Hr & [H | H]); injection H as -> ->;
        (split; [exact Hc |]); eauto.
Qed.

(** ** A parameter whose name is not an identifier *)

Section ParamNames.

Context {Val : Type} (repr : Val -> str).

Lemma render_param_invalid (p : Param Val) :
  _VALID_IDENT (pname p) = false ->
  render_param Val repr p
  = Raise (ValueError (lit "Invalid parameter identifier: '" ++ pname p
                       ++ lit "'")).
Proof.
  intros Hp. unfold render_param, _ensure_ident. rewrite Hp. reflexivity.
Qed.

(** X4: [_render_param_sig] raises [ValueError] for the first parameter whose
    name is not an identifier, and names it in the message. *)
Theorem render_param_sig_rejects (good rest : list (Param Val))
    (p : Param Val) :
  Forall (fun q => _VALID_IDENT (pname q) = true) good ->
  _VALID_IDENT (pname p) = false ->
  _render_param_sig Val repr (good ++ p :: rest)
  = Raise (ValueError (lit "Invalid parameter identifier: '" ++ pname p
                       ++ lit "'")).
Proof.
  intros Hgood Hp. unfold _render_param_sig.
  assert (Hm : mapM (render_param Val repr) (good ++ p :: rest)
               = Raise (ValueError (lit "Invalid parameter identifier: '"
                                    ++ pname p ++ lit "'"))).
  { induction Hgood as [|q good Hq _ IH]; cbn [app mapM].
    - rewrite (render_param_invalid p Hp). reflexivity.
    - rewrite (render_param_valid repr q Hq), bind_ok, IH. reflexivity. }
  rewrite Hm. reflexivity.
Qed.

End ParamNames.

Lemma render_param_sig_rejects_witness :
  _render_param_sig Z str_of_int
    ([Demo.query]
     ++ {| pname := lit "max-items"; ptype := None; pdescription := None;
           pdefault := Some 3 |} :: [Demo.limit])
  = Raise (ValueError (lit "Invalid parameter identifier: '"
                       ++ lit "max-items" ++ lit "'")).
Proof.
  apply (render_param_sig_rejects str_of_int); [repeat constructor |].
  reflexivity.
Defined.

(** ** What a call does to the file system *)

Lemma no_file_among (l : list Path) (fs : FS) (q : Path) :
  existsb (fun q => is_file (fs !! q)) l = false ->
  q ∈ l -> is_file (fs !! q) = false.
Proof.
  induction l as [|p l IH]; cbn [existsb]; [by intros _ H%elem_of_nil |].
  intros [Hp Hl]%orb_false_elim [-> | Hq]%elem_of_cons; [exact Hp | by apply IH].
Qed.

Lemma mkdir_p_files (p : Path) (fs fs' : FS) (q : Path) (t : str) :
  mkdir_p p fs = Ok fs' ->
  fs' !! q = Some (File t) <-> fs !! q = Some (File t).
Proof.
  intros Hmk. rewrite (mkdir_p_lookup p fs fs' q Hmk).
  unfold mkdir_p in Hmk.
  destruct (existsb _ (prefixes p)) eqn:Hex; [discriminate Hmk |].
  destruct (decide (q ∈ prefixes p)) as [Hq | Hq]; [| done].
  pose proof (no_file_among _ fs q Hex Hq) as Hf.
  split; [discriminate |]. intros H. rewrite H in Hf. discriminate Hf.
Qed.

(** Making the package marker: it is written, empty, only where nothing
    is. *)
Lemma marker_step (init : Path) (fs_a : FS) :
  exists fs_b,
    (if path_exists init fs_a then Ok fs_a else write_text init [] fs_a)
    = Ok fs_b
    /\ keeps_files fs_a fs_b /\ adds_only_empty_files fs_a fs_b.
Proof.
  destruct (path_exists init fs_a) eqn:He.
  - exists fs_a. split; [done |]. split; intros p t H; eauto.
  - apply bool_decide_eq_false in He. unfold write_text.
    destruct (fs_a !! init) as [n|] eqn:Hn; [destruct He; eauto |].
    eexists. split; [reflexivity |]. split; intros p t.
    + intros H. rewrite lookup_insert_ne; [exact H | congruence].
    + rewrite lookup_insert. destruct (decide (init = p)) as [-> | Hne].
      * intros [= <-]. by right.
      * by left.
Qed.

Section Outcome.

Context {Val : Type} (repr : Val -> str) (resolve : str -> Path)
  (install_root : Path).

(** The ways a call can end. *)
Lemma define_outcome (agent_name : option str)
    (tools : option (list (ToolSpec Val))) (overwrite : bool)
    (tool_context : option ToolContext) (now_tag : str) (fs fs' : FS)
    (r : result ToolResult) :
  define_dynamic_tools Val repr resolve install_root agent_name tools
    overwrite tool_context now_tag fs = (fs', r) ->
  (fs' = fs /\ not_success r)
  \/ exists fs_b,
       keeps_files fs fs_b /\ adds_only_empty_files fs fs_b
       /\ ((fs' = fs_b /\ not_success r)
           \/ exists specs text0 st g,
                tools = Some specs
                /\ r = Ok (StatusSuccess g)
                /\ (fs_b !! py_file g = Some (File text0)
                    \/ fs_b !! py_file g = None)
                /\ process_specs Val repr overwrite
                     {| text := text0; ls_created := []; ls_skipped := [] |}
                     specs = Ok st
                /\ created g = ls_created st
                /\ skipped g = ls_skipped st
                /\ fs' = <[py_file g := File (text st)]> fs_b).
Proof.
  unfold define_dynamic_tools. intros Hcall.
  destruct agent_name as [[|a0 agent]|];
    [left; injection Hcall as <- <-; by split | | left; injection Hcall as <- <-; by split].
  destruct tools as [[|spec0 tools]|];
    [left; injection Hcall as <- <-; by split | | left; injection Hcall as <- <-; by split].
  cbv zeta in Hcall.
  destruct (py_replace (lit "-") (lit "_") (_slugify (a0 :: agent)))
    as [|c0 slug']; [left; injection Hcall as <- <-; by split |].
  destruct (_ensure_ident _ (lit "module")) as [checked|e];
    [| left; injection Hcall as <- <-; by split].
  match type of Hcall with
  | match mkdir_p ?p _ with _ => _ end = _ => set (src_dir := p) in *
  end.
  destruct (mkdir_p src_dir fs) as [fs_a|e] eqn:Hmk;
    [| left; injection Hcall as <- <-; by split].
  match type of Hcall with
  | match (if path_exists ?p _ then _ else _) with _ => _ end = _ =>
      destruct (marker_step p fs_a) as (fs_b & Hinit & Hkeep & Hadd)
  end.
  rewrite Hinit in Hcall. right. exists fs_b.
  split; [intros p t H; by apply Hkeep, (mkdir_p_files src_dir fs fs_a) |].
  split.
  { intros p t H. destruct (Hadd p t H) as [H' | ->]; [left | by right].
    by apply (mkdir_p_files src_dir fs fs_a p t Hmk). }
  match type of Hcall with
  | match (if path_exists ?p _ then _ else _) with _ => _ end = _ =>
      set (py := p) in *
  end.
  assert (Hread : (exists t0,
            (if path_exists py fs_b then read_text py fs_b
             else Ok (_render_header (a0 :: agent))) = Ok t0
            /\ (fs_b !! py = Some (File t0) \/ fs_b !! py = None))
          \/ exists e, (if path_exists py fs_b then read_text py fs_b
                        else Ok (_render_header (a0 :: agent))) = Raise e).
  { destruct (path_exists py fs_b) eqn:He.
    - unfold read_text. destruct (fs_b !! py) as [[|t]|]; eauto 6.
    - apply bool_decide_eq_false in He.
      destruct (fs_b !! py) as [n|] eqn:Hn; [destruct He; eauto |].
      left. eexists. split; [reflexivity | by right]. }
  destruct Hread as [(text0 & Hread & Hpy) | [e Hread]]; rewrite Hread in Hcall;
    [| left; injection Hcall as <- <-; by split].
  destruct (process_specs Val repr overwrite _ (spec0 :: tools)) as [st|e]
    eqn:Hloop; [| left; injection Hcall as <- <-; by split].
  assert (Hwrite : write_text py (text st) fs_b
                   = Ok (<[py := File (text st)]> fs_b)).
  { unfold write_text. destruct Hpy as [-> | ->]; reflexivity. }
  rewrite Hwrite in Hcall. injection Hcall as <- <-.
  right. do 4 eexists. split; [reflexivity |]. split; [reflexivity |].
  cbn [py_file created skipped]. eauto 8.
Qed.

End Outcome.

Section Calls.

Context {Val : Type} (repr : Val -> str) (resolve : str -> Path)
  (install_root : Path).

(** ** Every spec is reported once *)

Lemma process_spec_counts (overwrite : bool) (st st' : LoopState)
    (spec : ToolSpec Val) :
  process_spec Val repr overwrite st spec = Ok st' ->
  (length (ls_created st') + length (ls_skipped st')
   = S (length (ls_created st) + length (ls_skipped st)))%nat.
Proof.
  unfold process_spec.
  destruct (match function_name spec with
            | Some n => _ensure_ident n (lit "function")
            | None => Raise (KeyError (lit "function_name"))
            end) as [fname|e].
  - destruct (_function_exists (text st) fname && negb overwrite).
    + intros H. apply Ok_inj in H as <-. cbn. rewrite length_app. cbn. lia.
    + intros H. apply bind_inv in H as (blk & _ & H).
      apply Ok_inj in H as <-. cbn. rewrite length_app. cbn. lia.
  - intros H. apply Ok_inj in H as <-. cbn. rewrite length_app. cbn. lia.
Qed.

Lemma process_specs_counts (overwrite : bool) (tools : list (ToolSpec Val))
    (st st' : LoopState) :
  process_specs Val repr overwrite st tools = Ok st' ->
  (length (ls_created st') + length (ls_skipped st')
   = length (ls_created st) + length (ls_skipped st) + length tools)%nat.
Proof.
  revert st. induction tools as [|spec tools IH]; intros st; cbn [process_specs].
  - intros H. apply Ok_inj in H as <-. cbn. lia.
  - intros H. apply bind_inv in H as (st1 & H1 & H).
    apply process_spec_counts in H1. apply IH in H. cbn [length]. lia.
Qed.

(** X5: In the record of a call that succeeded, [created] and [skipped]
    together have one entry for each spec of the input. *)
Theorem every_spec_is_reported (agent_name : option str)
    (tools : option (list (ToolSpec Val))) (overwrite : bool)
    (tool_context : option ToolContext) (now_tag : str) (fs fs' : FS)
    (g : Generated) :
  define_dynamic_tools Val repr resolve install_root agent_name tools
    overwrite tool_context now_tag fs = (fs', Ok (StatusSuccess g)) ->
  (length (created g) + length (skipped g) = length (get_or tools []))%nat.
Proof.
  intros Hcall.
  destruct (define_outcome repr resolve install_root _ _ _ _ _ _ _ _ Hcall)
    as [[_ Hno] | (fs_b & _ & _ & [[_ Hno] | H])]; try by destruct (Hno g).
  destruct H as (specs & text0 & st & g' & -> & Hg & _ & Hloop & Hc & Hs & _).
  apply Ok_inj, StatusSuccess_inj in Hg as <-.
  rewrite Hc, Hs. apply process_specs_counts in Hloop. cbn in Hloop.
  cbn [get_or]. lia.
Qed.

(** ** Without [overwrite] the text only grows *)




(** ** Files a call leaves alone *)



(** ** A spec with an invalid name does not disturb the others *)

Lemma process_spec_same_output (overwrite : bool) (a b : LoopState)
    (spec : ToolSpec Val) :
  same_output a b ->
  match process_spec Val repr overwrite a spec,
        process_spec Val repr overwrite b spec with
  | Ok a', Ok b' => same_output a' b'
  | Raise e, Raise e' => e = e'
  | _, _ => False
  end.
Proof.
  intros [Ht Hc]. unfold process_spec. rewrite Ht, Hc.
  destruct (match function_name spec with
            | Some n => _ensure_ident n (lit "function")
            | None => Raise (KeyError (lit "function_name"))
            end) as [fname|e]; [| by split].
  destruct (_function_exists (text b) fname && negb overwrite); [by split |].
  destruct (_render_function_block Val repr spec) as [blk|e]; [| done].
  by split.
Qed.

Lemma process_specs_same_output (overwrite : bool)
    (tools : list (ToolSpec Val)) (a b : LoopState) :
  same_output a b ->
  match process_specs Val repr overwrite a tools,
        process_specs Val repr overwrite b tools with
  | Ok a', Ok b' => same_output a' b'
  | Raise e, Raise e' => e = e'
  | _, _ => False
  end.
Proof.
  revert a b. induction tools as [|spec tools IH]; intros a b Hab;
    cbn [process_specs]; [exact Hab |].
  pose proof (process_spec_same_output overwrite a b spec Hab) as H.
  destruct (process_spec Val repr overwrite a spec) as [a'|e],
           (process_spec Val repr overwrite b spec) as [b'|e'];
    try done.
  rewrite !bind_ok. by apply IH.
Qed.

Lemma process_spec_invalid (overwrite : bool) (st : LoopState)
    (spec : ToolSpec Val) :
  (forall n, function_name spec = Some n -> _VALID_IDENT n = false) ->
  exists st', process_spec Val repr overwrite st spec = Ok st'
              /\ same_output st st'.
Proof.
  intros Hbad. unfold process_spec.
  destruct (function_name spec) as [n|] eqn:Hn.
  - unfold _ensure_ident. rewrite (Hbad n eq_refl).
    eexists. split; [reflexivity | by split].
  - eexists. split; [reflexivity | by split].
Qed.

(** X9: Putting a spec whose function name is missing or is not an identifier
    anywhere into a batch changes neither the text that is written nor
    [created], and whether the batch raises: the batch ends as it does
    without that spec. *)
Theorem invalid_spec_is_isolated (overwrite : bool) (st : LoopState)
    (before after : list (ToolSpec Val)) (bad : ToolSpec Val) :
  (forall n, function_name bad = Some n -> _VALID_IDENT n = false) ->
  match process_specs Val repr overwrite st (before ++ after),
        process_specs Val repr overwrite st (before ++ bad :: after) with
  | Ok a, Ok b =>
      text a = text b /\ ls_created a = ls_created b
      /\ length (ls_skipped b) = S (length (ls_skipped a))
  | Raise e, Raise e' => e = e'
  | _, _ => False
  end.
Proof.
  intros Hbad.
  assert (Hsame :
    match process_specs Val repr overwrite st (before ++ after),
          process_specs Val repr overwrite st (before ++ bad :: after) with
    | Ok a, Ok b => same_output a b
    | Raise e, Raise e' => e = e'
    | _, _ => False
    end).
  { revert st. induction before as [|spec before IH]; intros st; cbn [app].
    - cbn [process_specs].
      destruct (process_spec_invalid overwrite st bad Hbad) as (st' & -> & Hst).
      rewrite bind_ok. by apply process_specs_same_output.
    - cbn [process_specs].
      destruct (process_spec Val repr overwrite st spec) as [st1|e]; [| done].
      rewrite !bind_ok. apply IH. }
  destruct (process_specs Val repr overwrite st (before ++ after))
    as [a|e] eqn:Ha,
    (process_specs Val repr overwrite st (before ++ bad :: after))
    as [b|e'] eqn:Hb; try done.
  destruct Hsame as [Ht Hc]. split; [exact Ht |]. split; [exact Hc |].
  apply process_specs_counts in Ha, Hb.
  rewrite length_app in Ha, Hb. cbn [length] in Hb.
  rewrite Hc in Ha. lia.
Qed.

End Calls.

(** * Properties of the domain tools *)

(** ** User stories *)

Lemma mem_elem (x : str) (l : list str) :
  Requirements.mem x l = true -> x ∈ l.
Proof. apply bool_decide_eq_true. Qed.

Lemma mem_nil (x : str) : Requirements.mem x [] = false.
Proof. apply bool_decide_eq_false, not_elem_of_nil. Qed.

Lemma first_of_elem (l : list str) :
  l <> [] -> exists p, Requirements.first_of l = Ok p /\ p ∈ l.
Proof.
  destruct l as [|x l]; [done |]. intros _. exists x.
  split; [reflexivity | apply elem_of_cons; by left].
Qed.

Lemma last_of_elem (l : list str) :
  l <> [] -> exists p, Requirements.last_of l = Ok p /\ p ∈ l.
Proof.
  intros Hl. unfold Requirements.last_of.
  destruct (last l) as [x|] eqn:Hlast.
  - exists x. split; [reflexivity |].
    apply last_Some in Hlast as [l' ->]. apply elem_of_app. right.
    apply elem_of_cons. by left.
  - by apply last_None in Hlast.
Qed.

Lemma assigned_persona_in (requirement : str) (personas : list str) :
  personas <> [] ->
  exists p,
    Requirements.assign_persona_to_requirement requirement personas = Ok p
    /\ p ∈ personas.
Proof.
  intros Hne. unfold Requirements.assign_persona_to_requirement.
  repeat match goal with
         | |- context [if ?b then _ else _] =>
             let H := fresh "H" in destruct b eqn:H
         end;
    eauto using mem_elem, first_of_elem, last_of_elem.
Qed.

(** X11: With at least one persona, [assign_persona_to_requirement] returns
    one of the given personas and does not raise. *)
Theorem assigned_persona_is_given (requirement : str) (personas : list str) :
  personas <> [] ->
  exists p,
    Requirements.assign_persona_to_requirement requirement personas = Ok p
    /\ p ∈ personas.
Proof. exact (assigned_persona_in requirement personas). Qed.

Lemma assigned_persona_is_given_witness :
  exists p,
    Requirements.assign_persona_to_requirement
      (lit "The system shall process refunds") [lit "Clerk"; lit "Auditor"]
    = Ok p
    /\ p ∈ [lit "Clerk"; lit "Auditor"].
Proof. apply assigned_persona_is_given. discriminate. Defined.

(** [assign_persona_to_requirement] on an empty list of personas raises
    [IndexError]. *)
Theorem assigned_persona_needs_one (requirement : str) :
  Requirements.assign_persona_to_requirement requirement []
  = Raise (IndexError (lit "list index out of range")).
Proof.
  unfold Requirements.assign_persona_to_requirement.
  rewrite !mem_nil.
  repeat match goal with
         | |- context [if ?b then _ else _] => destruct b
         end; reflexivity.
Qed.

(** X12: The estimate of a story is between 1 and 9 points: the cap of 13 is
    never reached. *)
Theorem story_points_bounds (requirement : str) :
  1 <= Requirements.estimate_story_points requirement <= 9.
Proof.
  unfold Requirements.estimate_story_points.
  repeat match goal with
         | |- context [if ?b then _ else _] => destruct b
         end; lia.
Qed.

Lemma py_truediv_returns (a b : Z) :
  b <> 0 -> py_truediv a b = Ok (Qdiv (inject_Z a) (inject_Z b)).
Proof.
  intros Hb. unfold py_truediv.
  destruct (Z.eqb_spec b 0) as [H | _]; [by destruct Hb | reflexivity].
Qed.

Lemma make_stories_returns (personas : list str) (detail fmt : str)
    (requirements : list str) (i : nat) :
  personas <> [] ->
  exists ss,
    Requirements.make_stories personas detail fmt i requirements = Ok ss
    /\ length ss = length requirements
    /\ map Requirements.original_requirement ss = requirements.
Proof.
  intros Hne. revert i.
  induction requirements as [|req requirements IH]; intros i.
  - exists []. done.
  - cbn [Requirements.make_stories]. unfold Requirements.make_story.
    destruct (assigned_persona_in req personas Hne) as (p & -> & _).
    destruct (IH (S i)) as (ss & -> & Hlen & Hmap).
    rewrite !bind_ok. eexists. split; [reflexivity |].
    cbn. by rewrite Hlen, Hmap.
Qed.

(** X10: With at least one requirement, [create_user_stories] returns a
    record with status "success" that holds one story for each
    requirement, in input order, whatever the personas, detail level and
    format are. *)
Theorem create_user_stories_returns
    (Ctx Cfg : Type) (requirements : list str)
    (user_personas : option (list str))
    (acceptance_criteria_detail story_format : option str)
    (tool_context : Ctx) (tool_config : Cfg) (w : World) :
  requirements <> [] ->
  exists u,
    (Requirements.create_user_stories requirements user_personas
       acceptance_criteria_detail story_format tool_context tool_config w).2
    = Ok u
    /\ Requirements.status u = lit "success"
    /\ map Requirements.original_requirement (Requirements.user_stories u)
       = requirements
    /\ Requirements.total_stories (Requirements.story_overview u)
       = len requirements.
Proof.
  intros Hne. unfold Requirements.create_user_stories. cbn [snd].
  set (personas := match user_personas with
                   | Some ((_ :: _) as l) => l
                   | _ => _
                   end).
  assert (Hp : personas <> []).
  { subst personas. by destruct user_personas as [[|p l]|]. }
  destruct (make_stories_returns personas
              (get_or acceptance_criteria_detail (lit "standard"))
              (get_or story_format (lit "agile")) requirements 0 Hp)
    as (ss & -> & Hlen & Hmap).
  rewrite bind_ok.
  pose proof (calculate_story_statistics_returns ss) as Hstat.
  destruct (Requirements.calculate_story_statistics ss) as [stat|e];
    [| destruct Hstat].
  rewrite bind_ok, py_truediv_returns, bind_ok.
  - eexists. split; [reflexivity |]. cbn.
    split; [reflexivity |]. split; [exact Hmap |].
    unfold len. by rewrite Hlen.
  - unfold len. rewrite Hlen. destruct requirements; [done | cbn; lia].
Qed.

Lemma create_user_stories_returns_witness :
  exists u,
    (Requirements.create_user_stories [lit "Users can reset a password"]
       None None None tt tt Demo.world0).2
    = Ok u
    /\ Requirements.status u = lit "success"
    /\ map Requirements.original_requirement (Requirements.user_stories u)
       = [lit "Users can reset a password"]
    /\ Requirements.total_stories (Requirements.story_overview u)
       = len [lit "Users can reset a password"].
Proof. apply create_user_stories_returns. discriminate. Defined.

(** ** Themes and priorities of the stories *)

Lemma entries_without_empty {V} (d : list (str * list V)) :
  entries (filter (fun kv => kv.2 <> []) d) = entries d.
Proof.
  unfold entries. induction d as [|[k v] d IH]; [reflexivity |].
  rewrite filter_cons. cbn [snd].
  destruct (decide (v ≠ [])) as [Hv | Hv]; cbn [map sum_list snd].
  - by rewrite IH.
  - apply dec_stable in Hv as ->. by rewrite IH.
Qed.

Lemma no_theme_matches (x : str) (names : list str) :
  x ∉ names ->
  sum_list (map (fun t => if decide (x = t) then 1%nat else 0%nat) names)
  = 0%nat.
Proof.
  induction names as [|a names IH]; [reflexivity |].
  intros [Hne Hx]%not_elem_of_cons. cbn [map sum_list].
  rewrite decide_False by done. by rewrite IH.
Qed.

Lemma one_theme_matches (x : str) (names : list str) :
  NoDup names -> x ∈ names ->
  sum_list (map (fun t => if decide (x = t) then 1%nat else 0%nat) names)
  = 1%nat.
Proof.
  induction 1 as [|t names Ht Hnd IH]; [by intros H%elem_of_nil |].
  cbn [map sum_list]. intros [-> | Hx]%elem_of_cons.
  - rewrite decide_True by done. by rewrite no_theme_matches.
  - rewrite decide_False by (intros ->; done). by rewrite IH.
Qed.

Lemma theme_of_is_a_theme (s : Requirements.Story) :
  Requirements.theme_of s ∈ Requirements.theme_names.
Proof.
  unfold Requirements.theme_of.
  repeat match goal with
         | |- context [if ?b then _ else _] => destruct b
         end;
    apply list_elem_of_In; cbn; tauto.
Qed.

Lemma theme_names_distinct : NoDup Requirements.theme_names.
Proof.
  apply NoDup_ListNoDup. unfold Requirements.theme_names.
  repeat constructor; cbn; intuition discriminate.
Qed.

Lemma sum_list_map_add {A} (f g : A -> nat) (l : list A) :
  sum_list (map (fun a => (f a + g a)%nat) l)
  = (sum_list (map f l) + sum_list (map g l))%nat.
Proof. induction l as [|a l IH]; cbn in *; lia. Qed.

Lemma stories_by_theme (names : list str) (l : list Requirements.Story) :
  NoDup names ->
  (forall s, Requirements.theme_of s ∈ names) ->
  sum_list (map (fun theme =>
                   length (filter (fun s => Requirements.theme_of s = theme) l))
                names)
  = length l.
Proof.
  intros Hnd Hin. induction l as [|s l IH].
  - clear Hnd Hin. induction names as [|a names IHn]; [reflexivity |].
    cbn [map sum_list]. rewrite filter_nil. exact IHn.
  - transitivity
      (sum_list
         (map (fun theme =>
                 ((if decide (Requirements.theme_of s = theme)
                   then 1 else 0)
                  + length (filter (fun s => Requirements.theme_of s = theme)
                              l))%nat)
              names)).
    { f_equal. apply map_ext. intros theme. rewrite filter_cons.
      by destruct (decide _). }
    rewrite sum_list_map_add, IH, (one_theme_matches _ names Hnd (Hin s)).
    reflexivity.
Qed.

(** X13: [organize_stories_by_theme] files every story under exactly one
    theme: the identifiers listed under the themes are as many as the
    stories. *)
Theorem every_story_has_one_theme (user_stories : list Requirements.Story) :
  entries (Requirements.organize_stories_by_theme user_stories)
  = length user_stories.
Proof.
  unfold Requirements.organize_stories_by_theme.
  rewrite entries_without_empty. unfold entries.
  rewrite map_map. cbn [snd].
  rewrite <- (stories_by_theme Requirements.theme_names user_stories
                theme_names_distinct theme_of_is_a_theme).
  f_equal. apply map_ext. intros theme. apply length_map.
Qed.




(** ** Complexity of requirements *)

Lemma complexity_score_bounds (req : str) :
  1 <= Requirements.complexity_score req <= 5.
Proof.
  unfold Requirements.complexity_score.
  repeat match goal with
         | |- context [if ?b then _ else _] => destruct b
         end; lia.
Qed.

Lemma filter_no_longer {A} (f : A -> bool) (l : list A) :
  (length (List.filter f l) <= length l)%nat.
Proof.
  induction l as [|a l IH]; cbn [List.filter length]; [lia |].
  destruct (f a); cbn [length]; lia.
Qed.

(** X15: [assess_requirement_complexity] returns for every list, the empty
    one too, with one score between 1 and 5 for each requirement and a
    count of complex requirements that does not exceed their number. *)
Theorem complexity_scores_are_clamped (requirements : list str) :
  exists c,
    Requirements.assess_requirement_complexity requirements = Ok c
    /\ length (Requirements.individual_scores c) = length requirements
    /\ Forall (fun score => 1 <= score <= 5)
         (Requirements.individual_scores c)
    /\ 0 <= Requirements.high_complexity_count c <= len requirements.
Proof.
  unfold Requirements.assess_requirement_complexity.
  assert (Hall : Forall (fun score => 1 <= score <= 5)
                   (map Requirements.complexity_score requirements)).
  { apply Forall_forall. intros x Hx.
    apply list_elem_of_fmap in Hx as (req & -> & _).
    apply complexity_score_bounds. }
  assert (Hhigh : 0 <= len (List.filter (fun score => 4 <=? score)
                              (map Requirements.complexity_score requirements))
                  <= len requirements).
  { unfold len.
    pose proof (filter_no_longer (fun score => 4 <=? score)
                  (map Requirements.complexity_score requirements)) as H.
    rewrite length_map in H. lia. }
  destruct requirements as [|req requirements].
  - cbn [map]. rewrite bind_ok. eexists. split; [reflexivity |]. cbn. done.
  - cbn [map]. rewrite py_truediv_returns by (unfold len; cbn; lia).
    rewrite bind_ok. eexists. split; [reflexivity |].
    cbn [Requirements.individual_scores Requirements.high_complexity_count].
    split; [cbn; by rewrite length_map |]. split; [exact Hall | exact Hhigh].
Qed.

(** ** Program management helpers *)

Lemma slice_to_length {A} (l : list A) (n : Z) :
  Z.of_nat (length (slice_to l n))
  = Z.min (len l) (Z.max 0 (if n <? 0 then len l + n else n)).
Proof.
  unfold slice_to, len. destruct (Z.leb_spec 0 n) as [H | H];
    rewrite length_take; destruct (Z.ltb_spec n 0); lia.
Qed.

(** X16: The number of roles [generate_team_roles] returns: the team size up
    to three (a negative size counts back from five), seven for a team of
    four to eight and ten for a larger one, because the slice applies to
    the additional roles only. *)
Theorem team_roles_count (team_size : Z) :
  Z.of_nat (length (ProgramManager.generate_team_roles team_size))
  = if team_size <=? 3
    then Z.max 0 (if team_size <? 0 then 5 + team_size else team_size)
    else if team_size <=? 8 then 7 else 10.
Proof.
  unfold ProgramManager.generate_team_roles.
  destruct (Z.leb_spec team_size 3) as [H3 | H3].
  - rewrite slice_to_length. unfold len. cbn [ProgramManager.base_roles length].
    destruct (Z.ltb_spec team_size 0); lia.
  - destruct (Z.leb_spec team_size 8) as [H8 | H8];
      rewrite length_app, Nat2Z.inj_add, slice_to_length; unfold len;
      cbn [ProgramManager.base_roles length];
      destruct (Z.ltb_spec team_size 0); lia.
Qed.

Example team_of_four_gets_seven_roles :
  length (ProgramManager.generate_team_roles 4) = 7%nat.
Proof. reflexivity. Qed.

(** X17: [assess_project_risks] rates the risk "high" exactly when the project
    is longer than 26 weeks, the team is smaller than 3 or larger than 12,
    and the priority is "critical"; it never lists more than three
    risks. *)
Theorem risk_level_high (duration_weeks team_size : Z) (priority : str) :
  let r := ProgramManager.assess_project_risks duration_weeks team_size
             priority in
  (ProgramManager.risk_level r = lit "high"
   <-> 26 < duration_weeks /\ (team_size < 3 \/ 12 < team_size)
       /\ priority = lit "critical")
  /\ (length (ProgramManager.identified_risks r) <= 3)%nat.
Proof.
  unfold ProgramManager.assess_project_risks.
  cbn [ProgramManager.risk_level ProgramManager.identified_risks].
  destruct (Z.ltb_spec 26 duration_weeks) as [Hd | Hd];
    destruct (Z.ltb_spec team_size 3) as [Hs | Hs];
    destruct (Z.ltb_spec 12 team_size) as [Hl | Hl];
    destruct (bool_decide (priority = lit "critical")) eqn:Hp;
    try lia;
    (apply bool_decide_eq_true in Hp || apply bool_decide_eq_false in Hp);
    (split; [| cbn; lia]); cbn; split;
    try discriminate; try tauto; try (intros (? & ? & ?); (lia || done)).
Qed.

Lemma filter_is_sublist {A} (f : A -> bool) (l : list A) :
  sublist (List.filter f l) l.
Proof.
  induction l as [|a l IH]; cbn [List.filter]; [constructor |].
  destruct (f a); by constructor.
Qed.

(** X18: [determine_decision_stakeholders] only selects among the available
    groups and keeps their order: it never names a group that was not
    given. *)
Theorem decision_stakeholders_are_available (decision : str)
    (available_groups : list str) :
  sublist
    (ProgramManager.determine_decision_stakeholders decision available_groups)
    available_groups.
Proof.
  unfold ProgramManager.determine_decision_stakeholders,
    ProgramManager.keep_groups.
  repeat match goal with
         | |- context [if ?b then _ else _] => destruct b
         end; try apply filter_is_sublist. reflexivity.
Qed.

(** ** Stages of a screening process *)

(** X19: [design_screening_process] lists at most five stages, numbered from
    one: as many as asked for when that is between none and five, and
    [total_stages] repeats the number asked for even when fewer stages
    are listed. *)
Theorem screening_stages
    (Ctx Cfg : Type) (role_type : str) (skills : option (list str))
    (n : Z) (assessment_type : option str) (tool_context : Ctx)
    (tool_config : Cfg) (w : World) :
  let p := Hiring.interview_process
             (Hiring.design_screening_process role_type skills (Some n)
                assessment_type tool_context tool_config w).2 in
  Hiring.total_stages p = n
  /\ Z.of_nat (length (Hiring.stages p)) = Z.max 0 (Z.min n 5)
  /\ map Hiring.stage (Hiring.stages p)
     = map (fun i => Z.of_nat i + 1) (seq 0 (length (Hiring.stages p))).
Proof.
  cbn [Hiring.design_screening_process snd Hiring.interview_process
       Hiring.total_stages Hiring.stages get_or].
  split; [reflexivity |].
  rewrite length_map, length_seq. split.
  - unfold len. cbn [Hiring.stage_names length]. lia.
  - rewrite map_map. reflexivity.
Qed.

(** ** The call-level properties on the demo repository *)

Lemma every_spec_is_reported_witness :
  let c := Demo.run (Some (lit "a"))
             (Some [Demo.ping; Demo.misnamed; Demo.ping]) false None [] ∅ in
  (length (created (Demo.generated_of c.2))
   + length (skipped (Demo.generated_of c.2))
   = length (get_or (Some [Demo.ping; Demo.misnamed; Demo.ping]) []))%nat.
Proof.
  intros c.
  apply (every_spec_is_reported str_of_int (fun s => [s]) [lit "repo"]
           (Some (lit "a")) (Some [Demo.ping; Demo.misnamed; Demo.ping])
           false None [] ∅ c.1).
  eapply call_of_its_parts. vm_compute. reflexivity.
Defined.




Lemma invalid_spec_is_isolated_witness :
  let st := {| text := []; ls_created := []; ls_skipped := [] |} in
  match process_specs Z str_of_int true st ([Demo.ping] ++ [Demo.pong "str"]),
        process_specs Z str_of_int true st
          ([Demo.ping] ++ Demo.misnamed :: [Demo.pong "str"]) with
  | Ok a, Ok b =>
      text a = text b /\ ls_created a = ls_created b
      /\ length (ls_skipped b) = S (length (ls_skipped a))
  | Raise e, Raise e' => e = e'
  | _, _ => False
  end.
Proof.
  intros st.
  apply (invalid_spec_is_isolated str_of_int true st [Demo.ping]
           [Demo.pong "str"] Demo.misnamed).
  intros n H. injection H as <-. reflexivity.
Defined.

Example a_failed_call_leaves_the_marker :
  let c := Demo.run (Some (lit "a")) (Some [Demo.hyphenated]) false None []
             ∅ in
  c.2 = Raise (ValueError (lit "Invalid parameter identifier: 'max-items'"))
  /\ c.1 !! [lit "repo"; lit "src"; lit "a"; lit "__init__.py"]
     = Some (File [])
  /\ c.1 !! Demo.tools_py "a" = None.
Proof. vm_compute. repeat split. Qed.
